(** * ytb1.py: format reduction, selection tokens and download orchestration

    A shallow embedding of [src/ytb1.py] (classes [YouTubeDownloader] and
    [TelegramBot]) together with the properties its specification states.

    Conventions of the embedding.
    - A Python [str] is a [string] holding its UTF-8 bytes.  The only
      separators the program looks for ('_', '.', '/') are ASCII, and an ASCII
      byte never occurs inside a multi-byte UTF-8 sequence, so splitting,
      joining and suffix tests on bytes agree with the ones on code points.
    - A Python [int] is a [Z].
    - A dictionary whose order matters (Python dictionaries keep insertion
      order) is an association list with pairwise distinct keys.
    - A key of a dictionary received from yt-dlp is a [field]: absent, present
      with value [None], or present with a value.
    - A handler is a function from the world (the files on disk and the trace
      of the calls made so far) to a result or an exception and the new
      world.  What the collaborators answer - yt-dlp, the messaging
      transport - is given by an environment [Env]; each of their calls may
      raise, an exception of class Exception or one outside it
      (asyncio.CancelledError, KeyboardInterrupt, SystemExit), which no
      handler of the program catches.
    - Paths are POSIX paths.
    - The progress hooks are modelled on their own, not as part of a
      download: the collaborator calls them while it downloads, and they only
      schedule edits of the status message or write to the console. *)

From Stdlib Require Import ZArith Lia Ascii String DecimalString Sorted Permutation.
From stdpp Require Import base list strings gmap.

Local Open Scope string_scope.
Local Open Scope Z_scope.

(** ** Python strings *)

Module PyStr.

(** [s.split(sep)] for a one-character separator: the fields between the
    occurrences of [sep]; never the empty list. *)
Fixpoint split (sep : ascii) (s : string) : list string :=
  match s with
  | EmptyString => [EmptyString]
  | String c s' =>
      if Ascii.eqb c sep then EmptyString :: split sep s'
      else match split sep s' with
           | [] => [String c EmptyString]
           | hd :: tl => String c hd :: tl
           end
  end.

(** [sep.join(parts)]. *)
Fixpoint join (sep : string) (parts : list string) : string :=
  match parts with
  | [] => EmptyString
  | [p] => p
  | p :: ps => p ++ sep ++ join sep ps
  end.

(** [c in s] for a character. *)
Fixpoint mem (c : ascii) (s : string) : bool :=
  match s with
  | EmptyString => false
  | String c' s' => Ascii.eqb c' c || mem c s'
  end.

(** [s.startswith(p)]. *)
Definition startswith (s p : string) : bool := String.prefix p s.

(** [s.endswith(p)]: [p] is [s] or the end of the tail of [s]. *)
Fixpoint endswith (s p : string) : bool :=
  String.eqb s p
  || match s with
     | EmptyString => false
     | String _ s' => endswith s' p
     end.

(** [needle in s] *)
Fixpoint contains (s needle : string) : bool :=
  String.prefix needle s
  || match s with
     | EmptyString => false
     | String _ s' => contains s' needle
     end.

(** The two-digit field [%02d] of a number from 0 to 99. *)
Definition two_digits (n : Z) : string :=
  (if n <? 10 then "0" else "") ++ NilZero.string_of_int (Z.to_int n).

(** The line feed. *)
Definition nl : string := String (ascii_of_nat 10) EmptyString.

(** [str(n)] for an integer. *)
Definition of_int (n : Z) : string := NilZero.string_of_int (Z.to_int n).

(** [not s], the truth value of a string: only the empty one is false. *)
Definition is_empty (s : string) : bool :=
  match s with EmptyString => true | _ => false end.

End PyStr.

(** ** Data model *)

(** The value found under a key of a yt-dlp dictionary. *)
Inductive field (A : Type) : Type :=
| Absent            (* the key is not in the dictionary *)
| Null              (* the key is there, its value is None *)
| Val (a : A).
Arguments Absent {A}.
Arguments Null {A}.
Arguments Val {A} a.

(** [d.get(key)]: an absent key reads as None. *)
Definition get {A} (x : field A) : option A :=
  match x with Val a => Some a | _ => None end.

(** One entry of [info['formats']].  [format_id] tells candidates apart; the
    program never reads it. *)
Record Format : Type := mkFormat {
  format_id : string;
  vcodec : field string;
  height : field Z;
  filesize : field Z;
}.

(** What [f.get('height', 'unknown')] evaluates to, and so a key of
    [unique_resolutions]: an integer, None, or the string 'unknown'. *)
Inductive Res : Type :=
| ResInt (h : Z)
| ResNone
| ResUnknown.

Global Instance Res_eq_dec : EqDecision Res.
Proof. solve_decision. Defined.

Global Instance field_eq_dec {A} `{EqDecision A} : EqDecision (field A).
Proof. solve_decision. Defined.

Global Instance Format_eq_dec : EqDecision Format.
Proof. solve_decision. Defined.

(** Insertion-ordered dictionaries. *)
Module Dict.
Section Dict.
Context {K V : Type} `{EqDecision K}.

Definition t : Type := list (K * V).

(** [d.get(k)] *)
Fixpoint lookup (k : K) (d : t) : option V :=
  match d with
  | [] => None
  | (k', v) :: d' => if decide (k = k') then Some v else lookup k d'
  end.

(** [k in d] *)
Definition mem (k : K) (d : t) : bool := bool_decide (is_Some (lookup k d)).

(** [d[k] = v]: a present key keeps its place, a new key goes last. *)
Fixpoint set (k : K) (v : V) (d : t) : t :=
  match d with
  | [] => [(k, v)]
  | (k', v') :: d' =>
      if decide (k = k') then (k, v) :: d' else (k', v') :: set k v d'
  end.
End Dict.
End Dict.

(** The metadata dictionary returned for a URL. *)
Record Info : Type := mkInfo {
  title : field string;
  uploader : field string;
  duration : field Z;
  upload_date : field string;
  view_count : field Z;
  formats : field (list Format);
}.

(** An exception of class Exception, as the text [str(e)] the handlers
    show. *)
Definition Exn : Type := string.

(** What a call raises: an exception of class Exception, which the handlers
    of the program catch ([except Exception]), or one that is a
    BaseException only - asyncio.CancelledError when an await is cancelled,
    KeyboardInterrupt, SystemExit - which passes through them. *)
Inductive Raised : Type :=
| Exception (e : Exn)
| BaseException (e : Exn).

(** ** YouTubeDownloader.get_available_formats *)

(** [f.get('vcodec') != 'none'] *)
Definition is_video (f : Format) : bool :=
  bool_decide (get (vcodec f) <> Some "none").

(** [f.get('height', 'unknown')] *)
Definition res_of (f : Format) : Res :=
  match height f with
  | Absent => ResUnknown
  | Null => ResNone
  | Val h => ResInt h
  end.

(** [f.get('filesize', 0) or 0] *)
Definition size_of (f : Format) : Z :=
  match filesize f with
  | Val n => n
  | _ => 0
  end.

(** [unique_resolutions.get(res, {}).get('filesize', 0) or 0] *)
Definition existing_size (res : Res) (unique : list (Res * Format)) : Z :=
  match Dict.lookup res unique with
  | Some g => size_of g
  | None => 0
  end.

(** The body of the loop over [formats]. *)
Definition visit (unique : list (Res * Format)) (f : Format) : list (Res * Format) :=
  if is_video f then
    let res := res_of f in
    let current_size := size_of f in
    if negb (Dict.mem res unique) || (existing_size res unique <? current_size)
    then Dict.set res f unique
    else unique
  else unique.

Definition unique_resolutions (formats : list Format) : list (Res * Format) :=
  fold_left visit formats [].

(** The sort key [item[0] if isinstance(item[0], int) else 0]. *)
Definition sort_key (res : Res) : Z :=
  match res with
  | ResInt h => h
  | _ => 0
  end.

(** [sorted(items, key=key, reverse=True)].  Python's sort is stable, also
    with [reverse=True]: items with equal keys keep the order they came in.
    The stable sorted arrangement of a list is unique, so a stable insertion
    sort denotes it. *)
Section Sorted.
Context {A : Type} (key : A -> Z).

Fixpoint insert_desc (x : A) (l : list A) : list A :=
  match l with
  | [] => [x]
  | y :: l' => if key y <=? key x then x :: y :: l' else y :: insert_desc x l'
  end.

Fixpoint sorted_reverse (l : list A) : list A :=
  match l with
  | [] => []
  | x :: l' => insert_desc x (sorted_reverse l')
  end.
End Sorted.

(** [sorted_resolutions], from the list the loop runs over. *)
Definition sorted_resolutions (formats : list Format) : list (Res * Format) :=
  sorted_reverse (fun item => sort_key item.1) (unique_resolutions formats).

(** The encoding candidates of [info]: [info.get('formats', [])] when that is
    a list. *)
Definition candidates (info : Info) : list Format :=
  match formats info with
  | Val l => l
  | _ => []
  end.

(** [formats = info.get('formats', [])] is the list under the key, the empty
    list when the key is absent, and None when the key holds None; iterating
    over None raises TypeError. *)
Definition get_available_formats (info : Info) : Exn + list (Res * Format) :=
  match formats info with
  | Null => inl "'NoneType' object is not iterable"
  | _ => inr (sorted_resolutions (candidates info))
  end.

(** The spec's end-to-end scenario. *)
Definition f1080a := mkFormat "137" (Val "avc1") (Val 1080) (Val 50000000).
Definition f1080b := mkFormat "248" (Val "vp9") (Val 1080) (Val 80000000).
Definition f720 := mkFormat "136" (Val "avc1") (Val 720) (Val 30000000).
Definition faudio := mkFormat "140" (Val "none") Null (Val 90000000).
Definition scenario : Info :=
  mkInfo (Val "T") (Val "U") (Val 125) Absent Absent
         (Val [f720; faudio; f1080a; f1080b]).


(** ** The selection token (TelegramBot.button_callback, the decoding) *)

(** [parts = data.split('_')], [quality = parts[1]] and
    [url = '_'.join(parts[2:])]; a missing [parts[1]] raises IndexError. *)
Definition decode_callback (data : string) : Exn + (string * string) :=
  let parts := PyStr.split "_" data in
  match parts !! 1%nat with
  | Some quality => inr (quality, PyStr.join "_" (drop 2 parts))
  | None => inl "list index out of range"
  end.

(** [f"dl_{quality}_{url}"], the payload of a button. *)
Definition encode_callback (quality url : string) : string :=
  "dl_" ++ quality ++ "_" ++ url.

(** ** The quality menu (TelegramBot.handle_message, the button loop) *)

(** An [InlineKeyboardButton]: its label and the payload sent back when it is
    pressed. *)
Record Button : Type := mkButton {
  text : string;
  callback_data : string;
}.

Global Instance Button_eq_dec : EqDecision Button.
Proof. solve_decision. Defined.

(** [f"{res}"] *)
Definition str_res (res : Res) : string :=
  match res with
  | ResInt h => PyStr.of_int h
  | ResNone => "None"
  | ResUnknown => "unknown"
  end.

(** The integer nearest to [num / den] for [0 < den], a tie going to the even
    neighbour. *)
Definition round_half_even (num den : Z) : Z :=
  let q := num / den in
  let r := num mod den in
  if 2 * r <? den then q
  else if den <? 2 * r then q + 1
  else if Z.even q then q else q + 1.

(** [f"{round(file_size/(1024*1024), 1)}"] for an integer [file_size].

    Below 2^53 in absolute value the quotient by 2^20 is an exact double.
    [round(x, 1)] rounds the exact value of [x] to one decimal (ties to even)
    and returns the double nearest to that decimal; printing it gives back the
    decimal, with its one digit after the point, and the sign of [x] is kept
    (also on a zero result).  So the text is that of [tenths / 10], where
    [tenths] is [10 * |file_size| / 2^20] rounded half-even. *)
Definition str_round_mb (file_size : Z) : string :=
  let tenths := round_half_even (10 * Z.abs file_size) (1024 * 1024) in
  (if file_size <? 0 then "-" else "")
    ++ PyStr.of_int (tenths / 10) ++ "." ++ PyStr.of_int (tenths mod 10).

(** [size_str], from [file_size = fmt.get('filesize')]: None and 0 are both
    false.  The text is the one the float arithmetic of the source gives for
    sizes below 2^53 bytes in absolute value (see [str_round_mb]); the
    properties that depend on the text of the size carry that bound. *)
Definition size_str (fmt : Format) : string :=
  match get (filesize fmt) with
  | Some file_size =>
      if file_size =? 0 then "" else " (" ++ str_round_mb file_size ++ "MB)"
  | None => ""
  end.

(** The button of one entry of [formats.items()]. *)
Definition video_button (url : string) (item : Res * Format) : Button :=
  let '(res, fmt) := item in
  mkButton (str_res res ++ "p" ++ size_str fmt)
           (encode_callback (str_res res) url).

Definition audio_button (url : string) : Button :=
  mkButton "🎵 Audio Only (MP3)" (encode_callback "audio" url).

(** [buttons] as handed to [InlineKeyboardMarkup]: one row per entry, one
    button per row. *)
Definition quality_buttons (formats : list (Res * Format)) (url : string)
  : list (list Button) :=
  ((fun item => [video_button url item]) <$> take 3 formats)
    ++ [[audio_button url]].

(** ** os.path.splitext (POSIX) *)

Module OsPath.

(** [s.rfind(c)]: the index of the last [c] in [s], -1 when there is none. *)
Fixpoint rfind_from (c : ascii) (s : string) (i found : Z) : Z :=
  match s with
  | EmptyString => found
  | String c' s' => rfind_from c s' (i + 1) (if Ascii.eqb c' c then i else found)
  end.

Definition rfind (c : ascii) (s : string) : Z := rfind_from c s 0 (-1).

(** [p[i:j]] for [0 <= i]. *)
Definition slice (p : string) (i j : Z) : string :=
  String.substring (Z.to_nat i) (Z.to_nat (j - i)) p.

(** Is there a character other than '.' in [s]? *)
Fixpoint has_non_dot (s : string) : bool :=
  match s with
  | EmptyString => false
  | String c s' => negb (Ascii.eqb c ".") || has_non_dot s'
  end.

(** [os.path.splitext(p)]: the extension starts at the last dot of the last
    path component, unless that component has only dots before it. *)
Definition splitext (p : string) : string * string :=
  let sepIndex := rfind "/" p in
  let dotIndex := rfind "." p in
  if (sepIndex <? dotIndex) && has_non_dot (slice p (sepIndex + 1) dotIndex)
  then (slice p 0 dotIndex, slice p dotIndex (Z.of_nat (String.length p)))
  else (p, EmptyString).

(** [os.path.join(a, b)] for a relative [b] and a non-empty [a] that does
    not end in '/'. *)
Definition join (a b : string) : string := a ++ "/" ++ b.

End OsPath.

(** ** The world the handlers act on *)

Record Postprocessor : Type := mkPostprocessor {
  pp_key : string;
  preferredcodec : string;
  preferredquality : string;
}.

(** The options a [YoutubeDL] is built from.  The progress hooks are left out:
    they are closures the collaborator calls while it downloads. *)
Record YdlOpts : Type := mkYdlOpts {
  quiet : bool;
  no_warnings : bool;
  merge_output_format : option string;
  format : option string;
  outtmpl : option string;
  postprocessors : list Postprocessor;
}.

(** The calls that leave the process: the messaging transport, the download
    collaborator, the file system and the console. *)
Inductive Call : Type :=
| ReplyText (text : string) (reply_markup : option (list (list Button)))
| Answer
| EditMessageText (text : string)
| DeleteMessage
| SendMessage (chat_id : Z) (text : string)
| SendAudio (chat_id : Z) (audio : string) (caption : string)
| SendVideo (chat_id : Z) (video : string) (caption : string)
| ExtractInfo (opts : YdlOpts) (url : string) (download : bool)
| Open (path : string)
| Rename (src dst : string)
| Remove (path : string)
| Print (line : string).

(** A call that returned, or a call that raised. *)
Inductive Entry : Type :=
| Ok (c : Call)
| Failed (c : Call) (e : Raised).

(** The files on disk and the calls made so far, oldest first. *)
Record World : Type := mkWorld {
  files : gset string;
  trace : list Entry;
}.

(** What the program does not decide: the answers of its collaborators and
    one builtin of the interpreter. *)
Record Env : Type := mkEnv {
  (** [ydl.extract_info(url, download=False)]: raises, or returns the metadata
      (possibly None). *)
  ydl_info : World -> string -> Raised + option Info;
  (** [ydl.extract_info(url, download=True)] followed by
      [ydl.prepare_filename(info)]: raises or returns the file name; either
      way it may have written files. *)
  ydl_download : World -> YdlOpts -> string -> (Raised + string) * gset string;
  (** A call to the messaging transport: None when it returns, the exception
      when it raises. *)
  bot_api : World -> Call -> option Raised;
  (** The builtin [int(s)]; what it raises is a ValueError. *)
  py_int : string -> Exn + Z;
  (** [s.strip()]. *)
  py_strip : string -> string;
}.

(** ** Handlers: state and exceptions *)

(** A computation reads and changes the world and returns or raises. *)
Definition M (A : Type) : Type := World -> (Raised + A) * World.

Definition ret {A} (a : A) : M A := fun w => (inr a, w).

Definition raise {A} (e : Raised) : M A := fun w => (inl e, w).

Definition bind {A B} (m : M A) (k : A -> M B) : M B :=
  fun w =>
    match m w with
    | (inr a, w') => k a w'
    | (inl e, w') => (inl e, w')
    end.

(** [try: body  except Exception as e: handler(e)]: an exception outside
    Exception is not caught. *)
Definition try_except {A} (body : M A) (handler : Exn -> M A) : M A :=
  fun w =>
    match body w with
    | (inl (Exception e), w') => handler e w'
    | r => r
    end.

Declare Scope py_scope.
Delimit Scope py_scope with py.
Notation "x <- m ;; k" := (bind m (fun x => k))
  (at level 20, m at level 99, k at level 200, only parsing) : py_scope.
Notation "m ;; k" := (bind m (fun _ => k))
  (at level 100, k at level 200, only parsing, right associativity) : py_scope.
Local Open Scope py_scope.

(** A pure step that returns or raises. *)
Definition lift {A} (r : Exn + A) : M A :=
  fun w =>
    match r with
    | inl e => (inl (Exception e), w)
    | inr a => (inr a, w)
    end.

Definition log (e : Entry) (w : World) : World :=
  mkWorld (files w) (trace w ++ [e]).

(** [repr(s)] of a string without quotes, backslashes or characters that
    need an escape. *)
Definition repr (s : string) : string := "'" ++ s ++ "'".

Definition no_such_file (what : string) : Exn :=
  "[Errno 2] No such file or directory: " ++ what.

(** [print(line)] *)
Definition print (line : string) : M unit :=
  fun w => (inr tt, log (Ok (Print line)) w).

(** [open(path, 'rb')]; the file is closed when the [with] block is left. *)
Definition py_open (path : string) : M unit :=
  fun w =>
    if decide (path ∈ files w) then (inr tt, log (Ok (Open path)) w)
    else let e := Exception (no_such_file (repr path)) in
         (inl e, log (Failed (Open path) e) w).

(** [os.path.exists(path)] *)
Definition os_path_exists (path : string) : M bool :=
  fun w => (inr (bool_decide (path ∈ files w)), w).

(** [os.remove(path)] *)
Definition os_remove (path : string) : M unit :=
  fun w =>
    if decide (path ∈ files w)
    then (inr tt, mkWorld (files w ∖ {[path]}) (trace w ++ [Ok (Remove path)]))
    else let e := Exception (no_such_file (repr path)) in
         (inl e, log (Failed (Remove path) e) w).

(** [os.rename(src, dst)] *)
Definition os_rename (src dst : string) : M unit :=
  fun w =>
    if decide (src ∈ files w)
    then (inr tt, mkWorld (files w ∖ {[src]} ∪ {[dst]})
                          (trace w ++ [Ok (Rename src dst)]))
    else let e := Exception (no_such_file (repr src ++ " -> " ++ repr dst)) in
         (inl e, log (Failed (Rename src dst) e) w).

(** [YouTubeDownloader.ydl_opts] *)
Definition ydl_opts : YdlOpts :=
  mkYdlOpts true true (Some "mp4") None None [].

(** [download_opts] of [TelegramBot.download_video]: a copy of [ydl_opts]
    updated with the format filter and the output template. *)
Definition video_download_opts (resolution : Z) : YdlOpts :=
  mkYdlOpts (quiet ydl_opts) (no_warnings ydl_opts)
            (merge_output_format ydl_opts)
            (Some ("b[height<=" ++ PyStr.of_int resolution ++ "]"))
            (Some (OsPath.join "temp_downloads" "%(title)s.%(ext)s"))
            (postprocessors ydl_opts).

(** [download_opts] of [TelegramBot.download_audio]. *)
Definition audio_download_opts : YdlOpts :=
  mkYdlOpts (quiet ydl_opts) (no_warnings ydl_opts)
            (merge_output_format ydl_opts)
            (Some "bestaudio/best")
            (Some (OsPath.join "temp_downloads" "%(title)s.%(ext)s"))
            [mkPostprocessor "FFmpegExtractAudio" "mp3" "192"].

(** [not filename] for a file name or None. *)
Definition not_filename (filename : option string) : bool :=
  match filename with
  | Some s => PyStr.is_empty s
  | None => true
  end.

Section Handlers.
Variable env : Env.

(** A call to the messaging transport. *)
Definition call (c : Call) : M unit :=
  fun w =>
    match bot_api env w c with
    | None => (inr tt, log (Ok c) w)
    | Some e => (inl e, log (Failed c e) w)
    end.

(** [info = ydl.extract_info(url, download=True)] and
    [filename = ydl.prepare_filename(info)] *)
Definition extract_and_prepare (opts : YdlOpts) (url : string) : M string :=
  fun w =>
    match ydl_download env w opts url with
    | (inr filename, fs) =>
        (inr filename, mkWorld fs (trace w ++ [Ok (ExtractInfo opts url true)]))
    | (inl e, fs) =>
        (inl e, mkWorld fs (trace w ++ [Failed (ExtractInfo opts url true) e]))
    end.

(** YouTubeDownloader.get_video_info *)
Definition get_video_info (url : string) : M (option Info) :=
  let opts := mkYdlOpts true false None None None [] in
  fun w =>
    match ydl_info env w url with
    | inr info => (inr info, log (Ok (ExtractInfo opts url false)) w)
    | inl (Exception e) =>
        (inr None,
         log (Ok (Print ("Error getting video info: " ++ e)))
             (log (Failed (ExtractInfo opts url false) (Exception e)) w))
    | inl (BaseException e) =>
        (inl (BaseException e),
         log (Failed (ExtractInfo opts url false) (BaseException e)) w)
    end.

(** TelegramBot.download_video *)
Definition download_video (url : string) (resolution : Z) (chat_id : Z)
  : M (option string) :=
  try_except
    (call (SendMessage chat_id
             ("⬇️ Downloading " ++ PyStr.of_int resolution ++ "p video..."));;
     filename <- extract_and_prepare (video_download_opts resolution) url;;
     if negb (PyStr.endswith filename ".mp4") then
       let new_filename := (OsPath.splitext filename).1 ++ ".mp4" in
       os_rename filename new_filename;;
       ret (Some new_filename)
     else ret (Some filename))
    (fun e => print ("Download error: " ++ e);; ret None).

(** TelegramBot.download_audio *)
Definition download_audio (url : string) (chat_id : Z) : M (option string) :=
  try_except
    (call (SendMessage chat_id "⬇️ Downloading audio...");;
     filename <- extract_and_prepare audio_download_opts url;;
     let filename := (OsPath.splitext filename).1 ++ ".mp3" in
     ret (Some filename))
    (fun e => print ("Audio download error: " ++ e);; ret None).

(** The inner [try] of [button_callback]: send the downloaded file and
    clean up. *)
Definition send_file (quality filename : string) (chat_id : Z) : M unit :=
  try_except
    ((if decide (quality = "audio") then
        py_open filename;;
        call (SendAudio chat_id filename "Here's your audio file!")
      else
        py_open filename;;
        call (SendVideo chat_id filename
                ("Here's your video in " ++ quality ++ "p quality!")));;
     os_remove filename;;
     call DeleteMessage)
    (fun e =>
       call (EditMessageText ("❌ Error sending file: " ++ e));;
       exists_ <- os_path_exists filename;;
       if exists_ then os_remove filename else ret tt).

(** TelegramBot.button_callback, for the payload [data] of the pressed
    button. *)
Definition button_callback (data : string) (chat_id : Z) : M unit :=
  call Answer;;
  if PyStr.startswith data "dl_" then
    try_except
      (selection <- lift (decode_callback data);;
       let '(quality, url) := selection in
       call (EditMessageText "⏳ Starting download... Please wait.");;
       filename <-
         (if decide (quality = "audio") then download_audio url chat_id
          else
            resolution <- lift (py_int env quality);;
            download_video url resolution chat_id);;
       if not_filename filename then
         call (EditMessageText "❌ Download failed. Please try again.")
       else
         send_file quality (default EmptyString filename) chat_id)
      (fun e => call (EditMessageText ("❌ Error: " ++ e)))
  else ret tt.

(** [str(timedelta(seconds=seconds))] for an integer number of seconds.  The
    days must fit a C int and be at most 999999999 in magnitude, or the
    constructor raises OverflowError. *)
Definition str_timedelta (seconds : Z) : Exn + string :=
  let days := seconds / 86400 in
  let secs := seconds mod 86400 in
  if (days <? - 2 ^ 31) || (2 ^ 31 - 1 <? days) then
    inl "Python int too large to convert to C int"
  else if 999999999 <? Z.abs days then
    inl ("days=" ++ PyStr.of_int days ++ "; must have magnitude <= 999999999")
  else
    let hms := PyStr.of_int (secs / 3600) ++ ":"
               ++ PyStr.two_digits (secs / 60 mod 60) ++ ":"
               ++ PyStr.two_digits (secs mod 60) in
    inr (if days =? 0 then hms
         else PyStr.of_int days ++ " day"
              ++ (if Z.abs days =? 1 then "" else "s") ++ ", " ++ hms).

(** [info[key]] inside an f-string. *)
Definition subscript_str (key : string) (x : field string) : Exn + string :=
  match x with
  | Absent => inl (repr key)
  | Null => inr "None"
  | Val s => inr s
  end.

(** [info.get(key, 'N/A')] inside an f-string. *)
Definition get_or_na (x : field string) : string :=
  match x with
  | Absent => "N/A"
  | Null => "None"
  | Val s => s
  end.

(** [duration] and [info_text] *)
Definition info_text (info : Info) : Exn + string :=
  match
    match duration info with
    | Absent => inl (repr "duration")
    | Null => inl "unsupported type for timedelta seconds component: NoneType"
    | Val seconds => str_timedelta seconds
    end
  with
  | inl e => inl e
  | inr duration =>
      match subscript_str "title" (title info) with
      | inl e => inl e
      | inr title =>
          match subscript_str "uploader" (uploader info) with
          | inl e => inl e
          | inr uploader =>
              inr ("📽 <b>" ++ title ++ "</b>" ++ PyStr.nl
                   ++ "👤 Channel: " ++ uploader ++ PyStr.nl
                   ++ "⏱ Duration: " ++ duration ++ PyStr.nl
                   ++ "📅 Upload date: " ++ get_or_na (upload_date info) ++ PyStr.nl
                   ++ "👀 Views: "
                   ++ match view_count info with
                      | Absent => "N/A"
                      | Null => "None"
                      | Val n => PyStr.of_int n
                      end)
          end
      end
  end.

(** TelegramBot.handle_message, for the text of the incoming message.  A
    metadata dictionary is taken to be non-empty (yt-dlp always sets its
    'id'), so [not info] holds for None only.  The labels of the menu are
    those of [size_str]: for a file size of 2^53 bytes or more the source may
    show another text, and from 2^1044 bytes its division raises
    OverflowError, which ends in the reply "Error: ...". *)
Definition handle_message (message_text : string) : M unit :=
  let url := py_strip env message_text in
  if negb (PyStr.contains url "youtube.com" || PyStr.contains url "youtu.be")
  then call (ReplyText "Please send a valid YouTube URL." None)
  else
    try_except
      (call (ReplyText "🔍 Getting video information..." None);;
       info <- get_video_info url;;
       match info with
       | None =>
           call (ReplyText
                   "❌ Could not get video information. Please check the URL." None)
       | Some info =>
           info_text <- lift (info_text info);;
           formats <- lift (get_available_formats info);;
           if bool_decide (formats = []) then
             call (ReplyText "❌ No downloadable formats found." None)
           else
             call (ReplyText info_text (Some (quality_buttons formats url)))
       end)
      (fun e => call (ReplyText ("❌ Error: " ++ e) None)).

End Handlers.

(** ** YouTubeDownloader.download_video and the progress hooks *)

(** [os.path.join(a, b)] on POSIX, for any two components. *)
Definition os_path_join (a b : string) : string :=
  if PyStr.startswith b "/" then b
  else if PyStr.is_empty a || PyStr.endswith a "/" then a ++ b
  else a ++ "/" ++ b.

(** The event a progress hook receives: the dictionary [d]. *)
Record Progress : Type := mkProgress {
  status : field string;
  percent_str : field string;      (* '_percent_str' *)
  speed_str : field string;        (* '_speed_str' *)
  eta_str : field string;          (* '_eta_str' *)
  filename : field string;
}.

(** [d.get(key, '?')] inside an f-string. *)
Definition get_or_unknown (x : field string) : string :=
  match x with
  | Absent => "?"
  | Null => "None"
  | Val s => s
  end.

(** The carriage return. *)
Definition cr : string := String (ascii_of_nat 13) EmptyString.

(** The header of the status message of a video download, and of an audio
    download. *)
Definition video_header (resolution : Z) : string :=
  "⬇️ Downloading " ++ PyStr.of_int resolution ++ "p video...".

Definition audio_header : string := "⬇️ Downloading audio...".

(** The hook [progress_hook] defined inside [TelegramBot.download_video] and
    [TelegramBot.download_audio], where [header] is the first line of its
    text: the text of the edit of the status message it schedules, None when
    it schedules none.  [d['status']] raises KeyError when the key is
    absent. *)
Definition status_edit (header : string) (d : Progress) : Exn + option string :=
  match status d with
  | Absent => inl (repr "status")
  | Null => inr None
  | Val s =>
      if decide (s = "downloading") then
        inr (Some (header ++ PyStr.nl
                   ++ "Progress: " ++ get_or_unknown (percent_str d) ++ PyStr.nl
                   ++ "Speed: " ++ get_or_unknown (speed_str d) ++ PyStr.nl
                   ++ "ETA: " ++ get_or_unknown (eta_str d)))
      else inr None
  end.

Module YouTubeDownloader.

(** [YouTubeDownloader.progress_hook]: the text it writes to the console, the
    empty text when it writes nothing ([print] ends its text with a line feed
    unless told [end='']). *)
Definition progress_hook (d : Progress) : Exn + string :=
  match status d with
  | Absent => inl (repr "status")
  | Null => inr EmptyString
  | Val s =>
      if decide (s = "downloading") then
        inr (cr ++ "Downloading: " ++ get_or_unknown (percent_str d)
             ++ " | Speed: " ++ get_or_unknown (speed_str d)
             ++ " | ETA: " ++ get_or_unknown (eta_str d))
      else if decide (s = "finished") then
        match filename d with
        | Absent => inl (repr "filename")
        | Null => inr (PyStr.nl ++ "Download complete! Saved to: None" ++ PyStr.nl)
        | Val name =>
            inr (PyStr.nl ++ "Download complete! Saved to: " ++ name ++ PyStr.nl)
        end
      else inr EmptyString
  end.

(** [download_opts] of [YouTubeDownloader.download_video]. *)
Definition download_opts (resolution : Z) (output_path : string) : YdlOpts :=
  mkYdlOpts (quiet ydl_opts) (no_warnings ydl_opts)
            (merge_output_format ydl_opts)
            (Some ("b[height<=" ++ PyStr.of_int resolution ++ "]"))
            (Some (os_path_join output_path "%(title)s.%(ext)s"))
            (postprocessors ydl_opts).

(** [YouTubeDownloader.download_video] *)
Definition download_video (env : Env) (url : string) (resolution : Z)
    (output_path : string) : M (option string) :=
  try_except
    (filename <- extract_and_prepare env (download_opts resolution output_path) url;;
     ret (Some filename))
    (fun e => print ("Download failed: " ++ e);; ret None).

End YouTubeDownloader.

(** ** Notions the properties are stated with *)

(** The candidates with a video codec, in the order of the list. *)
Definition video_candidates (info : Info) : list Format :=
  filter (fun f => is_video f = true) (candidates info).

(** [f] is, among the candidates [l] of resolution [res], one of largest
    size, and the first of these. *)
Definition first_largest (res : Res) (l : list Format) (f : Format) : Prop :=
  exists pre post,
    l = (pre ++ f :: post)%list /\ res_of f = res /\
    (forall g, g ∈ pre -> res_of g = res -> size_of g < size_of f) /\
    (forall g, g ∈ post -> res_of g = res -> size_of g <= size_of f).

(** "Comes no later than", for the descending order of keys. *)
Definition desc {A} (key : A -> Z) (a b : A) : Prop := key b <= key a.

(** The text of [tenths / 10], with its one digit after the point. *)
Definition str_tenths (tenths : Z) : string :=
  PyStr.of_int (tenths / 10) ++ "." ++ PyStr.of_int (tenths mod 10).

(** [tenths / 10] is [|file_size|] in units of 1024 * 1024 bytes, rounded to
    one decimal: no tenth is nearer. *)
Definition nearest_tenth_mb (file_size tenths : Z) : Prop :=
  2 * Z.abs (10 * Z.abs file_size - tenths * (1024 * 1024)) <= 1024 * 1024.

(** A label made of the height, "p", and the size in MB rounded to one
    decimal, in parentheses. *)
Definition label_with_size (h file_size : Z) (label : string) : Prop :=
  exists tenths,
    nearest_tenth_mb file_size tenths
    /\ label = PyStr.of_int h ++ "p ("
               ++ (if file_size <? 0 then "-" else "") ++ str_tenths tenths ++ "MB)".

(** The call behind an entry of the trace. *)
Definition entry_call (e : Entry) : Call :=
  match e with
  | Ok c => c
  | Failed c _ => c
  end.

(** A file handed to the transport's send operation. *)
Definition is_file_send (c : Call) : bool :=
  match c with
  | SendAudio _ _ _ | SendVideo _ _ _ => true
  | _ => false
  end.

(** The transport accepts every call that carries no file: answers, new
    messages, edits and deletions go through. *)
Definition text_calls_return (env : Env) : Prop :=
  forall w c, is_file_send c = false -> bot_api env w c = None.

(** The collaborator raises on every download of [url]. *)
Definition download_raises (env : Env) (url : string) : Prop :=
  forall w opts, exists e fs, ydl_download env w opts url = (inl (Exception e), fs).

(** Entry [a] stands before entry [b] in the trace. *)
Definition occurs_before (a b : Entry) (tr : list Entry) : Prop :=
  exists i j, tr !! i = Some a /\ tr !! j = Some b /\ (i < j)%nat.

(** The last component of a path. *)
Definition basename (p : string) : string :=
  OsPath.slice p (OsPath.rfind "/" p + 1) (Z.of_nat (String.length p)).

(** No file is handed to the transport in [tr]. *)
Definition no_file_sent (tr : list Entry) : Prop :=
  Forall (fun x => is_file_send (entry_call x) = false) tr.

(** [w'] is [w] after the calls [tr]. *)
Definition extends (w w' : World) (tr : list Entry) : Prop :=
  trace w' = (trace w ++ tr)%list.

(** The send [send_file] makes for a selection. *)
Definition send_call (quality filename : string) (chat_id : Z) : Call :=
  if decide (quality = "audio")
  then SendAudio chat_id filename "Here's your audio file!"
  else SendVideo chat_id filename ("Here's your video in " ++ quality ++ "p quality!").

(** The report of a failed delivery. *)
Definition send_error_report (e : Exn) : Entry :=
  Ok (EditMessageText ("❌ Error sending file: " ++ e)).

(** [buttons] under the text [shown] is the quality menu for the message
    [message_text]: the menu of a non-empty reduced map of some metadata. *)
Definition is_quality_menu
    (env : Env) (message_text shown : string) (buttons : list (list Button)) : Prop :=
  exists info reduced,
    get_available_formats info = inr reduced
    /\ reduced <> []
    /\ info_text info = inr shown
    /\ buttons = quality_buttons reduced (py_strip env message_text).

(** ** Sample environments *)

(** [int(s)] on plain decimal numerals: an optional '-' and digits. *)
Definition int_decimal (s : string) : Exn + Z :=
  match NilZero.int_of_string s with
  | Some d => inr (Z.of_int d)
  | None => inl ("invalid literal for int() with base 10: " ++ repr s)
  end.

(** The collaborator downloads "T" as a WebM file and, when asked for audio,
    leaves the MP3 file the post-processor makes of it; the transport accepts
    every call. *)
Definition env_ok : Env :=
  mkEnv
    (fun _ _ => inr (Some scenario))
    (fun w opts _ =>
       (inr "temp_downloads/T.webm",
        files w ∪ {[ match postprocessors opts with
                     | [] => "temp_downloads/T.webm"
                     | _ => "temp_downloads/T.mp3"
                     end ]}))
    (fun _ _ => None)
    int_decimal
    (fun s => s).

(** As [env_ok], but every download raises. *)
Definition env_download_fails : Env :=
  mkEnv (ydl_info env_ok)
        (fun w _ _ => (inl (Exception "ERROR: Video unavailable"), files w))
        (bot_api env_ok) (py_int env_ok) (py_strip env_ok).

(** As [env_ok], but the transport refuses every file. *)
Definition env_send_fails : Env :=
  mkEnv (ydl_info env_ok) (ydl_download env_ok)
        (fun _ c =>
           if is_file_send c then Some (Exception "Request Entity Too Large") else None)
        (py_int env_ok) (py_strip env_ok).

(** An empty disk and no call made yet. *)
Definition world0 : World := mkWorld ∅ [].

(** As [env_send_fails], and the transport also refuses the report of the
    failed delivery. *)
Definition env_report_fails : Env :=
  mkEnv (ydl_info env_ok) (ydl_download env_ok)
        (fun _ c =>
           match c with
           | SendAudio _ _ _ | SendVideo _ _ _ =>
               Some (Exception "Request Entity Too Large")
           | EditMessageText shown =>
               if PyStr.startswith shown "❌ Error sending file"
               then Some (Exception "Timed out") else None
           | _ => None
           end)
        (py_int env_ok) (py_strip env_ok).

(** ** Further notions and sample environments *)

(** The transport accepts every call. *)
Definition transport_accepts_all (env : Env) : Prop :=
  forall w c, bot_api env w c = None.

(** As [env_ok], but the transport refuses to answer the callback query. *)
Definition env_answer_fails : Env :=
  mkEnv (ydl_info env_ok) (ydl_download env_ok)
        (fun _ c =>
           match c with Answer => Some (Exception "Query is too old") | _ => None end)
        (py_int env_ok) (py_strip env_ok).

(** As [env_ok], but no post-processor runs: an audio download leaves the
    WebM file only. *)
Definition env_no_mp3 : Env :=
  mkEnv (ydl_info env_ok)
        (fun w _ _ => (inr "temp_downloads/T.webm", files w ∪ {[ "temp_downloads/T.webm" ]}))
        (bot_api env_ok) (py_int env_ok) (py_strip env_ok).

(** As [env_ok], but the send of the file is cancelled: the await raises
    asyncio.CancelledError, which is no Exception and whose text is empty. *)
Definition env_send_cancelled : Env :=
  mkEnv (ydl_info env_ok) (ydl_download env_ok)
        (fun _ c => if is_file_send c then Some (BaseException "") else None)
        (py_int env_ok) (py_strip env_ok).

(** What leaves [m] without being an Exception was raised by the last call
    [m] made. *)
Definition base_from_last_call {A} (m : M A) : Prop :=
  forall w w' e,
    m w = (inl (BaseException e), w') ->
    exists c, last (trace w') = Some (Failed c (BaseException e)).

(** Every file size of the metadata is below 2^53 bytes in absolute value:
    the sizes for which the float arithmetic of the labels is exact (see
    [str_round_mb]). *)
Definition sizes_exact (info : Info) : bool :=
  forallb (fun f => match filesize f with
                    | Val n => Z.abs n <? 2 ^ 53
                    | _ => true
                    end)
          (candidates info).

(** A download started at the collaborator. *)
Definition is_download (c : Call) : bool :=
  match c with
  | ExtractInfo _ _ true => true
  | _ => false
  end.

(** How many entries of [tr] are calls of the kind [p]. *)
Fixpoint count_calls (p : Call -> bool) (tr : list Entry) : nat :=
  match tr with
  | [] => 0
  | x :: tr' => (if p (entry_call x) then 1 else 0) + count_calls p tr'
  end.

(** * Properties *)

Local Open Scope list_scope.

(** ** Python strings *)

Example split_payload :
  PyStr.split "_" "dl_1080_https://x/y_z" = ["dl"; "1080"; "https://x/y"; "z"].
Proof. reflexivity. Qed.

Example split_empty : PyStr.split "_" "" = [""].
Proof. reflexivity. Qed.

Example join_rest : PyStr.join "_" ["https://x/y"; "z"] = "https://x/y_z".
Proof. reflexivity. Qed.

Example of_int_neg : PyStr.of_int (-1080) = "-1080".
Proof. reflexivity. Qed.

Example endswith_mp4 : PyStr.endswith "a/b.mp4" ".mp4" = true.
Proof. reflexivity. Qed.

Example scenario_formats :
  get_available_formats scenario = inr [(ResInt 1080, f1080b); (ResInt 720, f720)].
Proof. reflexivity. Qed.

(** ** Stable descending sort *)

Section SortedFacts.
Context {A : Type} (key : A -> Z).

Lemma insert_desc_perm (x : A) (l : list A) :
  insert_desc key x l ≡ₚ x :: l.
Proof.
  induction l as [|y l IH]; simpl; [done|].
  case_match; [done|].
  rewrite IH. apply Permutation_swap.
Qed.

Lemma sorted_reverse_perm (l : list A) : sorted_reverse key l ≡ₚ l.
Proof.
  induction l as [|x l IH]; simpl; [done|].
  by rewrite insert_desc_perm, IH.
Qed.

Lemma insert_desc_sorted (x : A) (l : list A) :
  StronglySorted (desc key) l -> StronglySorted (desc key) (insert_desc key x l).
Proof.
  induction 1 as [|y l Hl IH Hy]; simpl.
  - repeat constructor.
  - destruct (Z.leb_spec (key y) (key x)) as [Hle|Hlt].
    + constructor; [by constructor|].
      constructor; [done|].
      eapply Forall_impl; [exact Hy|]. unfold desc. intros; simpl in *; lia.
    + constructor; [done|].
      rewrite insert_desc_perm. constructor; [unfold desc; lia|done].
Qed.

Lemma sorted_reverse_sorted (l : list A) :
  StronglySorted (desc key) (sorted_reverse key l).
Proof.
  induction l; simpl; [constructor|by apply insert_desc_sorted].
Qed.

(** Stability: the items of one key keep the order they had. *)
Lemma insert_desc_stable (k : Z) (x : A) (l : list A) :
  StronglySorted (desc key) l ->
  filter (fun y => key y = k) (insert_desc key x l)
  = filter (fun y => key y = k) (x :: l).
Proof.
  induction 1 as [|y l Hl IH Hy]; simpl; [done|].
  destruct (Z.leb_spec (key y) (key x)) as [Hle|Hlt]; [done|].
  rewrite !filter_cons in *.
  repeat case_decide; simplify_eq; try lia; by rewrite IH.
Qed.

Lemma sorted_reverse_stable (k : Z) (l : list A) :
  filter (fun y => key y = k) (sorted_reverse key l)
  = filter (fun y => key y = k) l.
Proof.
  induction l as [|x l IH]; simpl; [done|].
  rewrite insert_desc_stable by apply sorted_reverse_sorted.
  by rewrite !filter_cons, IH.
Qed.

(** In a descending list an item with a larger key stands before one with
    a smaller key. *)
Lemma desc_sorted_lookup (l : list A) (i j : nat) (a b : A) :
  StronglySorted (desc key) l ->
  l !! i = Some a -> l !! j = Some b -> key b < key a -> (i < j)%nat.
Proof.
  intros Hs. revert i j. induction Hs as [|y l Hl IH Hy]; intros i j Hi Hj Hlt.
  - by rewrite lookup_nil in Hi.
  - destruct i as [|i], j as [|j]; simpl in *; simplify_eq; try lia.
    + rewrite Forall_forall in Hy.
      apply list_elem_of_lookup_2 in Hi. apply Hy in Hi. unfold desc in Hi. lia.
    + specialize (IH i j Hi Hj Hlt). lia.
Qed.
End SortedFacts.

(** ** Insertion-ordered dictionaries *)

Section DictFacts.
Context {K V : Type} `{EqDecision K}.
Implicit Types (d : list (K * V)) (k : K) (v : V).

Lemma lookup_set_eq d k v : Dict.lookup k (Dict.set k v d) = Some v.
Proof.
  induction d as [|[k' v'] d IH]; simpl; repeat case_decide; simpl;
    repeat case_decide; by simplify_eq.
Qed.

Lemma lookup_set_ne d k k' v :
  k <> k' -> Dict.lookup k' (Dict.set k v d) = Dict.lookup k' d.
Proof.
  intros Hne. induction d as [|[k0 v0] d IH]; simpl; repeat case_decide; simpl;
    repeat case_decide; by simplify_eq.
Qed.

Lemma keys_set_old d k v :
  is_Some (Dict.lookup k d) -> (Dict.set k v d).*1 = d.*1.
Proof.
  induction d as [|[k0 v0] d IH]; simpl; intros [x Hx]; [done|].
  repeat case_decide; simplify_eq; simpl; [done|]. f_equal. eauto.
Qed.

Lemma keys_set_new d k v :
  Dict.lookup k d = None -> (Dict.set k v d).*1 = (d.*1 ++ [k])%list.
Proof.
  induction d as [|[k0 v0] d IH]; simpl; intros Hx; [done|].
  repeat case_decide; simplify_eq; simpl. f_equal. eauto.
Qed.

Lemma lookup_None_keys d k : Dict.lookup k d = None <-> k ∉ d.*1.
Proof.
  induction d as [|[k0 v0] d IH]; simpl.
  - split; [intros _; apply not_elem_of_nil|done].
  - rewrite not_elem_of_cons. case_decide as Hk.
    + split; [done|]. by intros [? _].
    + rewrite IH. split; [by intros ?|by intros [_ ?]].
Qed.

Lemma mem_keys d k : Dict.mem k d = true <-> k ∈ d.*1.
Proof.
  unfold Dict.mem. rewrite bool_decide_eq_true.
  destruct (Dict.lookup k d) as [v|] eqn:E.
  - split; [intros _|eauto].
    destruct (decide (k ∈ d.*1)) as [|Hn]; [done|].
    apply lookup_None_keys in Hn. congruence.
  - apply lookup_None_keys in E. split; [by intros [? ?]|done].
Qed.

(** With distinct keys, the items are the graph of [lookup]. *)
Lemma elem_of_lookup d k v :
  NoDup d.*1 -> (k, v) ∈ d <-> Dict.lookup k d = Some v.
Proof.
  induction d as [|[k0 v0] d IH]; simpl; intros Hnd.
  - split; [by intros ?%elem_of_nil|done].
  - apply NoDup_cons in Hnd as [Hk0 Hnd]. rewrite elem_of_cons, IH by done.
    case_decide as Hk.
    + subst k0. split.
      * intros [[= ->]|Hl]; [done|].
        apply lookup_None_keys in Hk0. congruence.
      * intros [= ->]. by left.
    + split; [intros [[= ? ?]|?]; [done|done]|by right].
Qed.
End DictFacts.

(** ** The loop of get_available_formats *)

Lemma first_largest_snoc_other res l f x :
  first_largest res l f -> res_of x <> res -> first_largest res (l ++ [x]) f.
Proof.
  intros (pre & post & -> & Hres & Hpre & Hpost) Hx.
  exists pre, (post ++ [x])%list. split_and!; [by rewrite <-app_assoc|done..|].
  intros g [Hg| ->%list_elem_of_singleton]%elem_of_app Hk; [eauto|done].
Qed.

Lemma first_largest_snoc_smaller res l f x :
  first_largest res l f -> size_of x <= size_of f -> first_largest res (l ++ [x]) f.
Proof.
  intros (pre & post & -> & Hres & Hpre & Hpost) Hx.
  exists pre, (post ++ [x])%list. split_and!; [by rewrite <-app_assoc|done..|].
  intros g [Hg| ->%list_elem_of_singleton]%elem_of_app Hk; [eauto|done].
Qed.

Lemma first_largest_snoc_larger res l f x :
  first_largest res l f -> res_of x = res -> size_of f < size_of x ->
  first_largest res (l ++ [x]) x.
Proof.
  intros (pre & post & -> & Hres & Hpre & Hpost) Hx Hlt.
  exists (pre ++ f :: post)%list, []. split_and!; [done..| |by intros ? ?%elem_of_nil].
  intros g [Hg|[->|Hg]%elem_of_cons]%elem_of_app Hk.
  - specialize (Hpre g Hg Hk). lia.
  - done.
  - specialize (Hpost g Hg Hk). lia.
Qed.

(** What holds of [unique_resolutions] after each round of the loop. *)
Record loop_inv (seen : list Format) (unique : list (Res * Format)) : Prop := {
  inv_nodup : NoDup unique.*1;
  inv_best : forall res f,
    Dict.lookup res unique = Some f ->
    first_largest res (filter (fun g => is_video g = true) seen) f;
  inv_all : forall g,
    g ∈ seen -> is_video g = true -> is_Some (Dict.lookup (res_of g) unique);
}.

Lemma filter_video_snoc (seen : list Format) (x : Format) :
  filter (fun g => is_video g = true) (seen ++ [x])
  = (filter (fun g => is_video g = true) seen ++ (if is_video x then [x] else []))%list.
Proof.
  rewrite filter_app, filter_cons, filter_nil.
  destruct (is_video x); [by rewrite decide_True|by rewrite decide_False].
Qed.

Lemma loop_inv_visit seen unique x :
  loop_inv seen unique -> loop_inv (seen ++ [x]) (visit unique x).
Proof.
  intros [Hnd Hbest Hall]. unfold visit.
  destruct (is_video x) eqn:Hv.
  2:{ split; rewrite ?filter_video_snoc, ?Hv, ?app_nil_r; [done..|].
      intros g [Hg| ->%list_elem_of_singleton]%elem_of_app Hg'; [eauto|congruence]. }
  simpl.
  destruct (Dict.mem (res_of x) unique) eqn:Hmem; simpl.
  - (* the resolution is there already *)
    apply mem_keys in Hmem as Hin.
    destruct (Dict.lookup (res_of x) unique) as [f|] eqn:Hf;
      [|by apply lookup_None_keys in Hf].
    unfold existing_size. rewrite Hf.
    destruct (Z.ltb_spec (size_of f) (size_of x)) as [Hlt|Hge].
    + split; rewrite ?filter_video_snoc, ?Hv.
      * by rewrite keys_set_old by (rewrite Hf; eauto).
      * intros res g. destruct (decide (res_of x = res)) as [<-|Hne].
        -- rewrite lookup_set_eq. intros [= <-].
           eapply first_largest_snoc_larger; eauto.
        -- rewrite lookup_set_ne by done. intros Hg.
           apply first_largest_snoc_other; eauto.
      * intros g Hg Hg'. destruct (decide (res_of x = res_of g)) as [<-|Hne].
        -- rewrite lookup_set_eq. eauto.
        -- rewrite lookup_set_ne by done.
           apply elem_of_app in Hg as [Hg| ->%list_elem_of_singleton]; [eauto|done].
    + split; rewrite ?filter_video_snoc, ?Hv; [done| |].
      * intros res g Hg. destruct (decide (res_of x = res)) as [<-|Hne].
        -- rewrite Hf in Hg. injection Hg as <-.
           apply first_largest_snoc_smaller; eauto.
        -- apply first_largest_snoc_other; eauto.
      * intros g [Hg| ->%list_elem_of_singleton]%elem_of_app Hg'; [eauto|].
        rewrite Hf; eauto.
  - (* a new resolution *)
    assert (Dict.lookup (res_of x) unique = None) as Hf.
    { apply lookup_None_keys. intros Hin%mem_keys. congruence. }
    split; rewrite ?filter_video_snoc, ?Hv.
    + rewrite keys_set_new by done. apply NoDup_app. split_and!; [done| |apply NoDup_singleton].
      intros k Hk ->%list_elem_of_singleton. by apply lookup_None_keys in Hf.
    + intros res g. destruct (decide (res_of x = res)) as [<-|Hne].
      * rewrite lookup_set_eq. intros [= <-].
        exists (filter (fun g => is_video g = true) seen), [].
        split_and!; [done..| |by intros ? ?%elem_of_nil].
        intros g [Hv' Hg]%list_elem_of_filter Hk.
        destruct (Hall g Hg Hv') as [? Hsome]. congruence.
      * rewrite lookup_set_ne by done. intros Hg.
        apply first_largest_snoc_other; eauto.
    + intros g Hg Hg'. destruct (decide (res_of x = res_of g)) as [<-|Hne].
      * rewrite lookup_set_eq. eauto.
      * rewrite lookup_set_ne by done.
        apply elem_of_app in Hg as [Hg| ->%list_elem_of_singleton]; [eauto|done].
Qed.

Lemma unique_resolutions_inv (l : list Format) : loop_inv l (unique_resolutions l).
Proof.
  induction l as [|x l IH] using rev_ind.
  - split; [constructor|done|by intros ? ?%elem_of_nil].
  - unfold unique_resolutions in *. rewrite fold_left_app. simpl.
    by apply loop_inv_visit.
Qed.

(** ** get_available_formats *)

Lemma get_available_formats_inr (info : Info) (out : list (Res * Format)) :
  get_available_formats info = inr out ->
  out = sorted_resolutions (candidates info).
Proof. unfold get_available_formats. destruct (formats info); congruence. Qed.

Lemma sorted_resolutions_perm (l : list Format) :
  sorted_resolutions l ≡ₚ unique_resolutions l.
Proof. apply sorted_reverse_perm. Qed.

(** C1: when some candidate has a video codec, the output of
    [get_available_formats] is not empty, holds each height at most once (and
    the height of every video candidate once), and the candidate kept for a
    height is, among the video candidates of that height, one of largest file
    size (a missing size counting as 0) and the first of these in the list. *)
Theorem get_available_formats_one_per_height
    (info : Info) (out : list (Res * Format)) :
  get_available_formats info = inr out ->
  (exists f, f ∈ candidates info /\ is_video f = true) ->
  out <> []
  /\ NoDup out.*1
  /\ (forall g, g ∈ video_candidates info -> res_of g ∈ out.*1)
  /\ (forall res f, (res, f) ∈ out -> first_largest res (video_candidates info) f).
Proof.
  intros ->%get_available_formats_inr (f0 & Hf0 & Hv0).
  pose proof (sorted_resolutions_perm (candidates info)) as Hperm.
  destruct (unique_resolutions_inv (candidates info)) as [Hnd Hbest Hall].
  assert (forall g, g ∈ video_candidates info ->
                    res_of g ∈ (sorted_resolutions (candidates info)).*1) as Hkeys.
  { intros g [Hv Hg]%list_elem_of_filter. rewrite Hperm.
    destruct (Hall g Hg Hv) as [f Hf].
    apply elem_of_lookup in Hf; [|done].
    apply (list_elem_of_fmap_2 fst) in Hf. done. }
  split_and!.
  - intros Hnil. specialize (Hkeys f0). rewrite Hnil in Hkeys.
    eapply not_elem_of_nil, Hkeys. by apply list_elem_of_filter.
  - by rewrite Hperm.
  - done.
  - intros res f Hin. rewrite Hperm in Hin.
    apply Hbest. by apply elem_of_lookup.
Qed.

Lemma get_available_formats_one_per_height_witness :
  let out := [(ResInt 1080, f1080b); (ResInt 720, f720)] in
  out <> []
  /\ NoDup out.*1
  /\ (forall g, g ∈ video_candidates scenario -> res_of g ∈ out.*1)
  /\ (forall res f, (res, f) ∈ out -> first_largest res (video_candidates scenario) f).
Proof.
  apply (get_available_formats_one_per_height scenario); [reflexivity|].
  exists f720. split; [apply list_elem_of_here|reflexivity].
Defined.

(** C3: the output of [get_available_formats] is in descending order of the
    sort key, which is the height when that is an integer and 0 otherwise; so
    an entry of height "unknown" comes after every entry of positive height. *)
Theorem get_available_formats_sorted (info : Info) (out : list (Res * Format)) :
  get_available_formats info = inr out ->
  StronglySorted (desc (fun item => sort_key item.1)) out
  /\ sort_key ResUnknown = 0
  /\ (forall i j h f g,
        out !! i = Some (ResInt h, f) -> 0 < h ->
        out !! j = Some (ResUnknown, g) -> (i < j)%nat).
Proof.
  intros ->%get_available_formats_inr.
  assert (StronglySorted (desc (fun item : Res * Format => sort_key item.1))
            (sorted_resolutions (candidates info))) as Hs
    by apply sorted_reverse_sorted.
  split_and!; [done..|].
  intros i j h f g Hi Hh Hj.
  by apply (desc_sorted_lookup _ _ _ _ _ _ Hs Hi Hj).
Qed.

Lemma get_available_formats_sorted_witness :
  let out := [(ResInt 1080, f1080b); (ResInt 720, f720)] in
  StronglySorted (desc (fun item => sort_key item.1)) out
  /\ sort_key ResUnknown = 0
  /\ (forall i j h f g,
        out !! i = Some (ResInt h, f) -> 0 < h ->
        out !! j = Some (ResUnknown, g) -> (i < j)%nat).
Proof. apply (get_available_formats_sorted scenario). reflexivity. Defined.

(** C5: every entry of the output of [get_available_formats] is a candidate
    of the input whose video codec is not 'none', filed under its own height;
    a candidate without a video codec is in no entry. *)
Theorem get_available_formats_video_only (info : Info) (out : list (Res * Format)) :
  get_available_formats info = inr out ->
  (forall res f,
     (res, f) ∈ out ->
     f ∈ candidates info /\ get (vcodec f) <> Some "none" /\ res = res_of f)
  /\ (forall f, get (vcodec f) = Some "none" -> f ∉ out.*2).
Proof.
  intros ->%get_available_formats_inr.
  assert (forall res f,
     (res, f) ∈ sorted_resolutions (candidates info) ->
     f ∈ candidates info /\ get (vcodec f) <> Some "none" /\ res = res_of f) as H.
  { intros res f Hin. rewrite sorted_resolutions_perm in Hin.
    destruct (unique_resolutions_inv (candidates info)) as [Hnd Hbest _].
    apply elem_of_lookup in Hin; [|done].
    destruct (Hbest _ _ Hin) as (pre & post & Heq & Hres & _).
    assert (f ∈ filter (fun g => is_video g = true) (candidates info)) as Hf.
    { rewrite Heq. apply elem_of_app. right. apply list_elem_of_here. }
    apply list_elem_of_filter in Hf as [Hv Hf].
    unfold is_video in Hv. apply bool_decide_eq_true in Hv. done. }
  split; [done|].
  intros f Hnone [[res f'] [-> Hin]]%list_elem_of_fmap. simpl in *.
  by destruct (H _ _ Hin) as (_ & ? & _).
Qed.

Lemma get_available_formats_video_only_witness :
  let out := [(ResInt 1080, f1080b); (ResInt 720, f720)] in
  (forall res f,
     (res, f) ∈ out ->
     f ∈ candidates scenario /\ get (vcodec f) <> Some "none" /\ res = res_of f)
  /\ (forall f, get (vcodec f) = Some "none" -> f ∉ out.*2).
Proof. apply (get_available_formats_video_only scenario). reflexivity. Defined.

(** ** Splitting and joining *)

Lemma append_cons (x : ascii) (a b : string) : String x a +:+ b = String x (a +:+ b).
Proof. reflexivity. Qed.

Lemma append_assoc (a b c : string) : (a +:+ b) +:+ c = a +:+ (b +:+ c).
Proof. induction a as [|x a IH]; [done|]. by rewrite !append_cons, IH. Qed.

Lemma append_empty_r (a : string) : a +:+ "" = a.
Proof. induction a as [|x a IH]; [done|]. by rewrite append_cons, IH. Qed.

Lemma split_not_nil (sep : ascii) (s : string) : PyStr.split sep s <> [].
Proof. induction s; simpl; repeat case_match; done. Qed.

(** A separator-free field followed by the separator is the first part. *)
Lemma split_field (sep : ascii) (field rest : string) :
  PyStr.mem sep field = false ->
  PyStr.split sep (field +:+ String sep rest) = field :: PyStr.split sep rest.
Proof.
  induction field as [|c field IH]; simpl.
  - intros _. by rewrite Ascii.eqb_refl.
  - intros [Hc Hf]%orb_false_elim. rewrite Hc, IH by done. done.
Qed.

(** Joining the parts with the separator gives the string back. *)
Lemma join_split (sep : ascii) (s : string) :
  PyStr.join (String sep EmptyString) (PyStr.split sep s) = s.
Proof.
  induction s as [|c s IH]; simpl; [done|].
  pose proof (split_not_nil sep s) as Hne.
  destruct (Ascii.eqb_spec c sep) as [->|Hc].
  - simpl. destruct (PyStr.split sep s) eqn:E; [done|].
    by rewrite IH.
  - destruct (PyStr.split sep s) as [|hd tl] eqn:E; [done|].
    destruct tl; simpl in *; by rewrite <-IH.
Qed.

(** The decimal numerals hold digits and a sign only. *)
Lemma uint_only_digits (c : ascii) (d : Decimal.uint) :
  PyStr.mem c "0123456789" = false ->
  PyStr.mem c (NilEmpty.string_of_uint d) = false.
Proof.
  intros Hc. cbn [PyStr.mem] in Hc.
  repeat (apply orb_false_elim in Hc as [? Hc]).
  induction d; cbn [NilEmpty.string_of_uint PyStr.mem]; [done|..];
    by apply orb_false_intro.
Qed.

Lemma of_int_only_digits (c : ascii) (n : Z) :
  PyStr.mem c "-0123456789" = false -> PyStr.mem c (PyStr.of_int n) = false.
Proof.
  intros Hc. cbn [PyStr.mem] in Hc. apply orb_false_elim in Hc as [Hminus Hc].
  change (PyStr.mem c "0123456789" = false) in Hc.
  unfold PyStr.of_int, NilZero.string_of_int, NilZero.string_of_uint.
  destruct (Z.to_int n) as [d|d].
  - destruct d; [by apply (uint_only_digits c (Decimal.D0 Decimal.Nil))
                |by apply uint_only_digits..].
  - cbn [PyStr.mem]. rewrite Hminus.
    destruct d; [by apply (uint_only_digits c (Decimal.D0 Decimal.Nil))
                |by apply uint_only_digits..].
Qed.

Lemma str_res_no_underscore (res : Res) : PyStr.mem "_" (str_res res) = false.
Proof. destruct res; simpl; [by apply of_int_only_digits|done..]. Qed.

Lemma str_res_not_audio (res : Res) : str_res res <> "audio".
Proof.
  intros Heq. apply (f_equal (PyStr.mem "a")) in Heq.
  destruct res; simpl in Heq; [|done..].
  by rewrite of_int_only_digits in Heq.
Qed.

(** ** The selection token *)

(** Decoding [dl_<quality>_<url>]: the first two fields are split off, the
    rest is joined again. *)
Ltac decode_payload quality url :=
  unfold decode_callback, encode_callback;
  change ("dl_" ++ quality ++ "_" ++ url)%string
    with ("dl" +:+ String "_" (quality +:+ String "_" url));
  rewrite (split_field "_" "dl") by done;
  rewrite (split_field "_" quality) by done;
  change (("dl" :: quality :: PyStr.split "_" url) !! 1%nat) with (Some quality);
  change (drop 2 ("dl" :: quality :: PyStr.split "_" url)) with (PyStr.split "_" url);
  rewrite (join_split "_").

(** C2: a quality without underscore and any URL, encoded as
    [dl_<quality>_<url>], are what decoding the payload gives back: the
    second part of the split is the quality and the remaining parts, joined
    by underscores again, are the URL. *)
Theorem decode_encode_callback (quality url : string) :
  PyStr.mem "_" quality = false ->
  decode_callback (encode_callback quality url) = inr (quality, url).
Proof.
  intros Hq. unfold decode_callback, encode_callback.
  change ("dl_" ++ quality ++ "_" ++ url)%string
    with ("dl" +:+ String "_" (quality +:+ String "_" url)).
  (* the first two fields are "dl" and the quality *)
  rewrite (split_field "_" "dl") by done.
  rewrite (split_field "_" quality) by done.
  change (("dl" :: quality :: PyStr.split "_" url) !! 1%nat) with (Some quality).
  change (drop 2 ("dl" :: quality :: PyStr.split "_" url)) with (PyStr.split "_" url).
  (* the parts of the URL join to the URL *)
  by rewrite (join_split "_").
Qed.

Lemma decode_encode_callback_witness :
  PyStr.mem "_" "1080" = false
  /\ decode_callback (encode_callback "1080" "https://x/y_z")
     = inr ("1080", "https://x/y_z").
Proof. split; [reflexivity|]. apply decode_encode_callback. reflexivity. Defined.

Lemma startswith_app (p s : string) : PyStr.startswith (p +:+ s) p = true.
Proof.
  unfold PyStr.startswith. induction p as [|c p IH]; simpl.
  - by destruct s.
  - destruct (ascii_dec c c); [done|congruence].
Qed.

(** The payload of every button of the menu decodes to what it was built
    from, and passes the [startswith('dl_')] test of the handler. *)
Lemma video_button_decodes (url : string) (res : Res) (fmt : Format) :
  let data := callback_data (video_button url (res, fmt)) in
  PyStr.startswith data "dl_" = true
  /\ decode_callback data = inr (str_res res, url).
Proof.
  split; [apply (startswith_app "dl_")|].
  pose proof (str_res_no_underscore res) as Hres.
  cbn [video_button callback_data]. by decode_payload (str_res res) url.
Qed.

Lemma audio_button_decodes (url : string) :
  let data := callback_data (audio_button url) in
  PyStr.startswith data "dl_" = true /\ decode_callback data = inr ("audio", url).
Proof.
  split; [apply (startswith_app "dl_")|].
  cbn [audio_button callback_data]. by decode_payload "audio" url.
Qed.

(** ** The quality menu *)

(** No video button is the audio-only button. *)
Lemma video_button_not_audio (url : string) (item : Res * Format) :
  video_button url item <> audio_button url.
Proof.
  destruct item as [res fmt]. intros Heq.
  apply (f_equal (fun b => decode_callback (callback_data b))) in Heq.
  rewrite (proj2 (video_button_decodes url res fmt)) in Heq.
  rewrite (proj2 (audio_button_decodes url)) in Heq.
  injection Heq as Heq. by apply str_res_not_audio in Heq.
Qed.

Lemma quality_buttons_length (formats : list (Res * Format)) (url : string) :
  length (quality_buttons formats url) = S (Nat.min 3 (length formats)).
Proof.
  unfold quality_buttons. rewrite length_app, length_fmap, length_take.
  change (length [[audio_button url]]) with 1%nat. lia.
Qed.

Lemma quality_buttons_video_row
    (formats : list (Res * Format)) (url : string) (i : nat) (item : Res * Format) :
  (i < 3)%nat -> formats !! i = Some item ->
  quality_buttons formats url !! i = Some [video_button url item].
Proof.
  intros Hi Hitem. unfold quality_buttons.
  rewrite lookup_app_l
    by (rewrite length_fmap, length_take; apply lookup_lt_Some in Hitem; lia).
  by rewrite list_lookup_fmap, lookup_take_lt, Hitem by done.
Qed.

Lemma quality_buttons_last (formats : list (Res * Format)) (url : string) :
  last (quality_buttons formats url) = Some [audio_button url].
Proof. apply last_snoc. Qed.

(** C4: for a non-empty reduced map the menu has at most 4 rows: one video
    button for each of the first 3 entries of the map (fewer when the map is
    shorter), in their order, none of them the audio-only button, and after
    them, always, the audio-only button as the last row. *)
Theorem quality_buttons_menu (formats : list (Res * Format)) (url : string) :
  formats <> [] ->
  let buttons := quality_buttons formats url in
  (2 <= length buttons <= 4)%nat
  /\ length buttons = S (Nat.min 3 (length formats))
  /\ (forall i item,
        (i < 3)%nat -> formats !! i = Some item ->
        buttons !! i = Some [video_button url item]
        /\ buttons !! i <> Some [audio_button url])
  /\ buttons !! Nat.min 3 (length formats) = Some [audio_button url]
  /\ last buttons = Some [audio_button url].
Proof.
  intros Hne buttons. subst buttons.
  pose proof (quality_buttons_length formats url) as Hlen.
  split; [|split_and!].
  - rewrite Hlen. destruct formats as [|item0 rest]; [done|].
    change (length (item0 :: rest)) with (S (length rest)). lia.
  - done.
  - intros i item Hi Hitem.
    rewrite (quality_buttons_video_row _ _ _ _ Hi Hitem).
    split; [done|]. intros [= Heq]. by apply video_button_not_audio in Heq.
  - unfold quality_buttons.
    rewrite lookup_app_r by (rewrite length_fmap, length_take; lia).
    by rewrite length_fmap, length_take, Nat.sub_diag.
  - apply quality_buttons_last.
Qed.

Lemma quality_buttons_menu_witness :
  let formats := [(ResInt 1080, f1080b); (ResInt 720, f720)] in
  let buttons := quality_buttons formats "https://youtu.be/abc" in
  (2 <= length buttons <= 4)%nat
  /\ length buttons = S (Nat.min 3 (length formats))
  /\ (forall i item,
        (i < 3)%nat -> formats !! i = Some item ->
        buttons !! i = Some [video_button "https://youtu.be/abc" item]
        /\ buttons !! i <> Some [audio_button "https://youtu.be/abc"])
  /\ buttons !! Nat.min 3 (length formats) = Some [audio_button "https://youtu.be/abc"]
  /\ last buttons = Some [audio_button "https://youtu.be/abc"].
Proof. apply quality_buttons_menu. discriminate. Defined.

Example scenario_menu :
  quality_buttons [(ResInt 1080, f1080b); (ResInt 720, f720)] "https://youtu.be/abc"
  = [[mkButton "1080p (76.3MB)" "dl_1080_https://youtu.be/abc"];
     [mkButton "720p (28.6MB)" "dl_720_https://youtu.be/abc"];
     [mkButton "🎵 Audio Only (MP3)" "dl_audio_https://youtu.be/abc"]].
Proof. reflexivity. Qed.

(** ** Button labels *)

(** [round_half_even num den] is an integer nearest to [num / den], and the
    even one of the two when [num / den] lies halfway between them. *)
Lemma round_half_even_nearest (num den : Z) :
  0 < den ->
  let t := round_half_even num den in
  2 * Z.abs (num - t * den) <= den
  /\ (2 * Z.abs (num - t * den) = den -> Z.even t = true).
Proof.
  intros Hden. unfold round_half_even.
  pose proof (Z.div_mod num den ltac:(lia)) as Hdm.
  pose proof (Z.mod_pos_bound num den Hden) as Hr.
  set (q := num / den) in *. set (r := num mod den) in *. simpl.
  destruct (Z.ltb_spec (2 * r) den) as [H1|H1].
  - split; [lia|]. intros Heq. exfalso. nia.
  - destruct (Z.ltb_spec den (2 * r)) as [H2|H2].
    + split; [nia|]. intros Heq. exfalso. nia.
    + destruct (Z.even q) eqn:Hev.
      * split; [nia|done].
      * split; [nia|]. intros _. rewrite Z.even_add, Hev. done.
Qed.

(** C6, as amended: the label of an entry of integer height [h] is - when
    the file size is known and not 0 (and below 2^53 bytes in absolute value)
    - [h], "p", and in parentheses the size in units of 1024 * 1024 bytes
    rounded to one decimal, followed by "MB"; when the file size is unknown
    or 0 it is [h] and "p" alone; the label of the audio entry is a fixed
    text. *)
Theorem video_button_label (url : string) (h : Z) (fmt : Format) :
  (forall n,
     filesize fmt = Val n -> n <> 0 -> Z.abs n < 2 ^ 53 ->
     label_with_size h n (text (video_button url (ResInt h, fmt))))
  /\ (get (filesize fmt) = None \/ filesize fmt = Val 0 ->
      text (video_button url (ResInt h, fmt)) = (PyStr.of_int h +:+ "p"))
  /\ text (audio_button url) = "🎵 Audio Only (MP3)"
  /\ PyStr.contains (text (audio_button url)) "Audio Only" = true.
Proof.
  split_and!; [| |reflexivity..].
  - intros n Hn Hn0 _. unfold label_with_size, video_button, size_str. simpl.
    rewrite Hn. simpl. rewrite (proj2 (Z.eqb_neq n 0)) by done.
    exists (round_half_even (10 * Z.abs n) (1024 * 1024)). split.
    + apply (round_half_even_nearest (10 * Z.abs n) (1024 * 1024)). lia.
    + unfold str_round_mb, str_tenths. by rewrite !append_assoc.
  - unfold video_button, size_str. simpl.
    intros [->| ->]; simpl; by rewrite append_empty_r.
Qed.

Lemma video_button_label_witness :
  label_with_size 1080 80000000
    (text (video_button "https://youtu.be/abc" (ResInt 1080, f1080b))).
Proof.
  apply (proj1 (video_button_label "https://youtu.be/abc" 1080 f1080b) 80000000);
    [reflexivity|lia|reflexivity].
Defined.

(** C6 as stated fails for a file size that is known to be 0: the label
    carries no size. *)
Lemma video_button_label_zero_size :
  let fmt := mkFormat "18" (Val "avc1") (Val 720) (Val 0) in
  filesize fmt = Val 0
  /\ text (video_button "https://youtu.be/abc" (ResInt 720, fmt)) = "720p"
  /\ ~ label_with_size 720 0
         (text (video_button "https://youtu.be/abc" (ResInt 720, fmt))).
Proof.
  split_and!; [reflexivity..|].
  intros (tenths & _ & Heq). vm_compute in Heq. discriminate Heq.
Qed.

(** ** A selection that is neither audio nor a number *)

(** C10: when the quality of the selection is not "audio" and [int(quality)]
    raises, the handler makes no call but the answer to the query and edits
    of the status message: no download is started, no message is sent, no
    file is touched; and when the transport accepts these calls the last
    thing the user sees is the text "Error: " followed by the text of the
    exception. *)
Theorem button_callback_bad_quality
    (env : Env) (data quality url : string) (e : Exn) (chat_id : Z) (w : World) :
  PyStr.startswith data "dl_" = true ->
  decode_callback data = inr (quality, url) ->
  quality <> "audio" ->
  py_int env quality = inl e ->
  let '(r, w') := button_callback env data chat_id w in
  files w' = files w
  /\ (exists tr,
        trace w' = trace w ++ tr
        /\ Forall (fun x => match entry_call x with
                            | Answer | EditMessageText _ => True
                            | _ => False
                            end) tr)
  /\ (text_calls_return env ->
      r = inr tt
      /\ trace w' = trace w ++
           [Ok Answer;
            Ok (EditMessageText "⏳ Starting download... Please wait.");
            Ok (EditMessageText ("❌ Error: " +:+ e))]).
Proof.
  intros Hstart Hdec Hq He. unfold button_callback.
  unfold bind at 1. unfold call at 1.
  destruct (bot_api env w Answer) as [e0|] eqn:Hanswer.
  { (* the answer to the query raises *)
    simpl. split_and!; [done|by exists [Failed Answer e0]; repeat constructor|].
    intros Htext. by rewrite Htext in Hanswer. }
  rewrite Hstart. unfold try_except at 1.
  unfold bind at 1, lift at 1. rewrite Hdec.
  unfold bind at 1. unfold call at 1.
  set (w1 := log (Ok Answer) w).
  destruct (bot_api env w1 _) as [[e1|e1]|] eqn:Hedit1.
  { (* the first edit raises: the handler reports that *)
    unfold call.
    destruct (bot_api env _ (EditMessageText ("❌ Error: " ++ e1)%string)) eqn:Hedit2;
      simpl; (split_and!; [done|eexists; split; [by rewrite <-!app_assoc|repeat constructor]|]);
      intros Htext; by rewrite Htext in Hedit1. }
  { (* the first edit raises what no handler catches *)
    simpl. split_and!; [done|eexists; split; [by rewrite <-!app_assoc|repeat constructor]|].
    intros Htext. by rewrite Htext in Hedit1. }
  rewrite decide_False by done.
  unfold bind at 1. unfold bind at 1. unfold lift at 1. rewrite He.
  unfold call.
  destruct (bot_api env _ (EditMessageText ("❌ Error: " ++ e)%string)) eqn:Hedit2;
    simpl; (split_and!; [done|eexists; split; [by rewrite <-!app_assoc|repeat constructor]|]);
    intros Htext; [by rewrite Htext in Hedit2|].
  split; [done|]. by rewrite <-!app_assoc.
Qed.

Lemma button_callback_bad_quality_witness :
  let e := "invalid literal for int() with base 10: 'unknown'" in
  let '(r, w') := button_callback env_ok "dl_unknown_https://youtu.be/abc" 7 world0 in
  files w' = files world0
  /\ (exists tr,
        trace w' = trace world0 ++ tr
        /\ Forall (fun x => match entry_call x with
                            | Answer | EditMessageText _ => True
                            | _ => False
                            end) tr)
  /\ (text_calls_return env_ok ->
      r = inr tt
      /\ trace w' = trace world0 ++
           [Ok Answer;
            Ok (EditMessageText "⏳ Starting download... Please wait.");
            Ok (EditMessageText ("❌ Error: " +:+ e))]).
Proof.
  apply (button_callback_bad_quality
           env_ok "dl_unknown_https://youtu.be/abc" "unknown" "https://youtu.be/abc"
           "invalid literal for int() with base 10: 'unknown'" 7 world0);
    [reflexivity|reflexivity|discriminate|reflexivity].
Defined.

(** ** File names *)

Lemma eqb_string_refl (s : string) : String.eqb s s = true.
Proof. by apply String.eqb_eq. Qed.

Lemma endswith_app (a p : string) : PyStr.endswith (a +:+ p) p = true.
Proof.
  induction a as [|c a IH].
  - change ("" +:+ p) with p.
    destruct p; cbn [PyStr.endswith]; by rewrite eqb_string_refl.
  - rewrite append_cons. cbn [PyStr.endswith]. rewrite IH. apply orb_true_r.
Qed.

Lemma length_append (a b : string) :
  String.length (a +:+ b) = (String.length a + String.length b)%nat.
Proof. induction a as [|c a IH]; [done|]. rewrite append_cons. simpl. by rewrite IH. Qed.

Lemma rfind_from_app (c : ascii) (a b : string) (i found : Z) :
  OsPath.rfind_from c (a +:+ b) i found
  = OsPath.rfind_from c b (i + Z.of_nat (String.length a)) (OsPath.rfind_from c a i found).
Proof.
  revert i found. induction a as [|x a IH]; intros i found.
  - simpl. f_equal. lia.
  - rewrite append_cons. simpl. rewrite IH. f_equal. lia.
Qed.

Lemma rfind_from_absent (c : ascii) (s : string) (i found : Z) :
  PyStr.mem c s = false -> OsPath.rfind_from c s i found = found.
Proof.
  revert i found. induction s as [|x s IH]; intros i found; simpl; [done|].
  intros [-> Hs]%orb_false_elim. by apply IH.
Qed.

Lemma rfind_from_bound (c : ascii) (s : string) (i found : Z) :
  found < i -> OsPath.rfind_from c s i found < i + Z.of_nat (String.length s).
Proof.
  revert i found. induction s as [|x s IH]; intros i found Hlt; simpl; [lia|].
  specialize (IH (i + 1) (if Ascii.eqb x c then i else found)).
  destruct (Ascii.eqb x c); lia.
Qed.


Lemma substring_app_l (a b : string) (n m : nat) :
  (n + m <= String.length a)%nat ->
  String.substring n m (a +:+ b) = String.substring n m a.
Proof.
  revert n m. induction a as [|c a IH]; intros n m Hle.
  - simpl in Hle. assert (n = 0 /\ m = 0)%nat as [-> ->] by lia. by destruct b.
  - rewrite append_cons. destruct n as [|n]; simpl in *.
    + destruct m as [|m]; [done|]. f_equal. apply IH. lia.
    + apply IH. lia.
Qed.

Lemma substring_all (a : string) : String.substring 0 (String.length a) a = a.
Proof. induction a as [|c a IH]; simpl; [done|by rewrite IH]. Qed.

Lemma substring_prefix (a b : string) :
  String.substring 0 (String.length a) (a +:+ b) = a.
Proof. rewrite substring_app_l by lia. apply substring_all. Qed.

Lemma substring_suffix (a b : string) :
  String.substring (String.length a) (String.length b) (a +:+ b) = b.
Proof.
  induction a as [|c a IH]; [apply substring_all|].
  rewrite append_cons. simpl. apply IH.
Qed.

Lemma rfind_from_lower (c : ascii) (s : string) (i found : Z) :
  -1 <= found -> 0 <= i -> -1 <= OsPath.rfind_from c s i found.
Proof.
  revert i found. induction s as [|x s IH]; intros i found Hf Hi; simpl; [done|].
  apply IH; [destruct (Ascii.eqb x c)|]; lia.
Qed.

(** A name [stem.ext] splits into [stem] and [.ext] when the extension has
    no dot and no slash and the last component of [stem] is not made of dots
    only. *)
Lemma splitext_stem_ext (stem ext : string) :
  PyStr.mem "." ext = false ->
  PyStr.mem "/" ext = false ->
  OsPath.has_non_dot (basename stem) = true ->
  OsPath.splitext (stem +:+ "." +:+ ext) = (stem, "." +:+ ext).
Proof.
  intros Hdot Hsep Hbase.
  change ("." +:+ ext) with (String "." ext).
  set (sepIndex := OsPath.rfind "/" stem).
  assert (OsPath.rfind "/" (stem +:+ String "." ext) = sepIndex) as Hs.
  { unfold OsPath.rfind. rewrite (rfind_from_app "/" stem).
    apply rfind_from_absent. simpl. by rewrite Hsep. }
  assert (OsPath.rfind "." (stem +:+ String "." ext)
          = Z.of_nat (String.length stem)) as Hd.
  { unfold OsPath.rfind. rewrite (rfind_from_app "." stem).
    cbn [OsPath.rfind_from]. rewrite Ascii.eqb_refl.
    by rewrite rfind_from_absent by done. }
  assert (-1 <= sepIndex < Z.of_nat (String.length stem)) as Hlt.
  { pose proof (rfind_from_bound "/" stem 0 (-1) ltac:(lia)) as H.
    pose proof (rfind_from_lower "/" stem 0 (-1) ltac:(lia) ltac:(lia)) as H'.
    unfold sepIndex, OsPath.rfind. lia. }
  unfold OsPath.splitext. rewrite Hs, Hd.
  rewrite (proj2 (Z.ltb_lt _ _)) by lia.
  unfold basename in Hbase. fold sepIndex in Hbase.
  unfold OsPath.slice in *.
  rewrite (substring_app_l stem) by lia.
  rewrite Hbase. simpl andb. cbv iota.
  f_equal.
  - replace (Z.to_nat (Z.of_nat (String.length stem) - 0))
      with (String.length stem) by lia.
    apply substring_prefix.
  - rewrite length_append.
    replace (Z.to_nat (Z.of_nat (String.length stem)))
      with (String.length stem) by lia.
    replace (Z.to_nat _) with (String.length (String "." ext)) by lia.
    apply substring_suffix.
Qed.

Example splitext_song :
  OsPath.splitext "temp_downloads/Song.webm" = ("temp_downloads/Song", ".webm").
Proof. reflexivity. Qed.

Example splitext_hidden :
  OsPath.splitext "temp_downloads/.hidden" = ("temp_downloads/.hidden", "").
Proof. reflexivity. Qed.

(** ** download_audio *)

(** When the transport accepts the status message and the collaborator
    returns a file name, [download_audio] returns a path. *)
Lemma download_audio_returns
    (env : Env) (url : string) (chat_id : Z) (w : World)
    (reported : string) (fs : gset string) :
  let c := SendMessage chat_id "⬇️ Downloading audio..." in
  bot_api env w c = None ->
  ydl_download env (log (Ok c) w) audio_download_opts url = (inr reported, fs) ->
  download_audio env url chat_id w
  = (inr (Some ((OsPath.splitext reported).1 +:+ ".mp3")),
     mkWorld fs (trace w ++ [Ok c; Ok (ExtractInfo audio_download_opts url true)])).
Proof.
  intros c Hsend Hdl. unfold download_audio.
  unfold try_except, bind, call, extract_and_prepare. fold c.
  rewrite Hsend, Hdl. simpl. by rewrite <-app_assoc.
Qed.

(** C7: every path [download_audio] returns ends in ".mp3".  It is the file
    name the collaborator reported with its extension replaced: whatever
    extension [ext] a reported name [stem.ext] has, the path is [stem.mp3]. *)
Theorem download_audio_mp3
    (env : Env) (url : string) (chat_id : Z) (w w' : World) (path : string) :
  download_audio env url chat_id w = (inr (Some path), w') ->
  PyStr.endswith path ".mp3" = true
  /\ not_filename (Some path) = false
  /\ exists reported,
       ydl_download env (log (Ok (SendMessage chat_id "⬇️ Downloading audio...")) w)
                    audio_download_opts url
       = (inr reported, files w')
       /\ path = (OsPath.splitext reported).1 +:+ ".mp3"
       /\ (forall stem ext,
             reported = stem +:+ "." +:+ ext ->
             PyStr.mem "." ext = false -> PyStr.mem "/" ext = false ->
             OsPath.has_non_dot (basename stem) = true ->
             path = stem +:+ ".mp3").
Proof.
  unfold download_audio, try_except, bind, call, extract_and_prepare, print, ret.
  destruct (bot_api env w _) as [[e|e]|]; [intros [=]..|].
  destruct (ydl_download env _ _ _) as [[[e|e]|reported] fs] eqn:Hdl; [intros [=]..|].
  intros [= <- <-]. split_and!.
  - apply endswith_app.
  - by destruct (OsPath.splitext reported).1.
  - exists reported. split_and!; [done..|].
    intros stem ext -> Hdot Hsep Hbase. by rewrite splitext_stem_ext.
Qed.

Lemma download_audio_mp3_witness :
  PyStr.endswith "temp_downloads/T.mp3" ".mp3" = true
  /\ not_filename (Some "temp_downloads/T.mp3") = false
  /\ exists reported,
       ydl_download env_ok (log (Ok (SendMessage 7 "⬇️ Downloading audio...")) world0)
                    audio_download_opts "https://youtu.be/abc"
       = (inr reported, {[ "temp_downloads/T.mp3" ]})
       /\ "temp_downloads/T.mp3" = (OsPath.splitext reported).1 +:+ ".mp3"
       /\ (forall stem ext,
             reported = stem +:+ "." +:+ ext ->
             PyStr.mem "." ext = false -> PyStr.mem "/" ext = false ->
             OsPath.has_non_dot (basename stem) = true ->
             "temp_downloads/T.mp3" = stem +:+ ".mp3").
Proof.
  pose proof (download_audio_mp3 env_ok "https://youtu.be/abc" 7 world0
           (mkWorld {[ "temp_downloads/T.mp3" ]}
              [Ok (SendMessage 7 "⬇️ Downloading audio...");
               Ok (ExtractInfo audio_download_opts "https://youtu.be/abc" true)])
           "temp_downloads/T.mp3") as H.
  cbn [files] in H. apply H. clear H.
  rewrite (download_audio_returns env_ok _ 7 world0 "temp_downloads/T.webm"
             (∅ ∪ {[ "temp_downloads/T.mp3" ]})) by reflexivity.
  by rewrite (left_id_L ∅ (∪)).
Defined.

(** ** A download that raises *)

Lemma extends_refl (w : World) : extends w w [].
Proof. unfold extends. by rewrite app_nil_r. Qed.

Lemma extends_log (w w' : World) (tr : list Entry) (e : Entry) :
  extends w w' tr -> extends w (log e w') (tr ++ [e]).
Proof. unfold extends. simpl. intros ->. by rewrite app_assoc. Qed.

Lemma extends_snoc (w w' : World) (tr : list Entry) (e : Entry) (fs : gset string) :
  extends w w' tr -> extends w (mkWorld fs (trace w' ++ [e])) (tr ++ [e]).
Proof. unfold extends. simpl. intros ->. by rewrite app_assoc. Qed.

Lemma no_file_sent_snoc (tr : list Entry) (e : Entry) :
  no_file_sent tr -> is_file_send (entry_call e) = false -> no_file_sent (tr ++ [e]).
Proof. intros. apply Forall_app. split; [done|]. by constructor. Qed.

Lemma no_file_sent_app (tr1 tr2 : list Entry) :
  no_file_sent tr1 -> no_file_sent tr2 -> no_file_sent (tr1 ++ tr2).
Proof. intros. by apply Forall_app. Qed.

Lemma extends_trans (w1 w2 w3 : World) (tr1 tr2 : list Entry) :
  extends w1 w2 tr1 -> extends w2 w3 tr2 -> extends w1 w3 (tr1 ++ tr2).
Proof. unfold extends. intros H1 ->. by rewrite H1, app_assoc. Qed.

(** The fetch of a video whose download raises returns None, with no file
    handed to the transport - unless the status message it starts with
    raised what no handler catches, which then leaves the fetch before the
    collaborator is asked. *)
Lemma download_video_raises
    (env : Env) (url : string) (resolution chat_id : Z) (w : World) :
  download_raises env url ->
  exists r w' tr,
    download_video env url resolution chat_id w = (r, w')
    /\ extends w w' tr /\ no_file_sent tr
    /\ (r = inr None
        \/ exists e,
             r = inl (BaseException e)
             /\ bot_api env w (SendMessage chat_id (video_header resolution))
                = Some (BaseException e)).
Proof.
  intros Hraise. unfold download_video, try_except, bind, call.
  change ("⬇️ Downloading " +:+ PyStr.of_int resolution +:+ "p video...")
    with (video_header resolution).
  destruct (bot_api env w _) as [[e|e]|] eqn:Hsend.
  - eexists _, _, _. unfold print, ret. split_and!; [done| | |by left].
    + apply extends_log, extends_log, extends_refl.
    + by repeat apply no_file_sent_snoc; try constructor.
  - eexists _, _, _. split_and!; [done| | |right; by exists e].
    + apply extends_log, extends_refl.
    + by repeat apply no_file_sent_snoc; try constructor.
  - unfold extract_and_prepare.
    destruct (Hraise (log (Ok (SendMessage chat_id (video_header resolution))) w)
                (video_download_opts resolution)) as (e & fs & ->).
    eexists _, _, _. unfold print, ret. split_and!; [done| | |by left].
    + apply extends_log, extends_snoc, extends_log, extends_refl.
    + by repeat apply no_file_sent_snoc; try constructor.
Qed.

(** The same for the fetch of the audio. *)
Lemma download_audio_raises (env : Env) (url : string) (chat_id : Z) (w : World) :
  download_raises env url ->
  exists r w' tr,
    download_audio env url chat_id w = (r, w')
    /\ extends w w' tr /\ no_file_sent tr
    /\ (r = inr None
        \/ exists e,
             r = inl (BaseException e)
             /\ bot_api env w (SendMessage chat_id audio_header) = Some (BaseException e)).
Proof.
  intros Hraise. unfold download_audio, try_except, bind, call.
  change "⬇️ Downloading audio..." with audio_header.
  destruct (bot_api env w _) as [[e|e]|] eqn:Hsend.
  - eexists _, _, _. unfold print, ret. split_and!; [done| | |by left].
    + apply extends_log, extends_log, extends_refl.
    + by repeat apply no_file_sent_snoc; try constructor.
  - eexists _, _, _. split_and!; [done| | |right; by exists e].
    + apply extends_log, extends_refl.
    + by repeat apply no_file_sent_snoc; try constructor.
  - unfold extract_and_prepare.
    destruct (Hraise (log (Ok (SendMessage chat_id audio_header)) w)
                audio_download_opts) as (e & fs & ->).
    eexists _, _, _. unfold print, ret. split_and!; [done| | |by left].
    + apply extends_log, extends_snoc, extends_log, extends_refl.
    + by repeat apply no_file_sent_snoc; try constructor.
Qed.

(** C8: when the collaborator raises on the download the selection asked
    for, the fetch returns None, no file is handed to the transport, and -
    the transport accepting the calls that carry no file - the handler ends
    by showing the user "Download failed. Please try again.".  The fetch
    asks the collaborator after sending its status message; the one way
    not to get there, and not to return None, is this message raising what
    is no Exception, a cancelled await for one. *)
Theorem button_callback_download_raises
    (env : Env) (data quality url : string) (chat_id : Z) (w : World) :
  PyStr.startswith data "dl_" = true ->
  decode_callback data = inr (quality, url) ->
  (quality = "audio" \/ exists resolution, py_int env quality = inr resolution) ->
  download_raises env url ->
  (forall w1,
     (download_audio env url chat_id w1).1 = inr None
     \/ exists e,
          (download_audio env url chat_id w1).1 = inl (BaseException e)
          /\ bot_api env w1 (SendMessage chat_id audio_header) = Some (BaseException e))
  /\ (forall w1 resolution,
        (download_video env url resolution chat_id w1).1 = inr None
        \/ exists e,
             (download_video env url resolution chat_id w1).1 = inl (BaseException e)
             /\ bot_api env w1 (SendMessage chat_id (video_header resolution))
                = Some (BaseException e))
  /\ let '(r, w') := button_callback env data chat_id w in
     (exists tr, extends w w' tr /\ no_file_sent tr)
     /\ (text_calls_return env ->
         r = inr tt
         /\ last (trace w')
            = Some (Ok (EditMessageText "❌ Download failed. Please try again."))).
Proof.
  intros Hstart Hdec Hquality Hraise. split_and!.
  { intros w1.
    destruct (download_audio_raises env url chat_id w1 Hraise)
      as (r & w2 & tr & -> & _ & _ & [->|(e & -> & He)]); [by left|right; by exists e]. }
  { intros w1 resolution.
    destruct (download_video_raises env url resolution chat_id w1 Hraise)
      as (r & w2 & tr & -> & _ & _ & [->|(e & -> & He)]); [by left|right; by exists e]. }
  unfold button_callback.
  unfold bind at 1. unfold call at 1.
  destruct (bot_api env w Answer) as [e0|] eqn:Hanswer.
  { split; [exists [Failed Answer e0]; split; [done|by repeat constructor]|].
    intros Htext. by rewrite Htext in Hanswer. }
  rewrite Hstart. unfold try_except at 1.
  unfold bind at 1, lift at 1. rewrite Hdec.
  unfold bind at 1. unfold call at 1.
  set (w1 := log (Ok Answer) w).
  assert (extends w w1 [Ok Answer]) as Hw1 by done.
  destruct (bot_api env w1 _) as [[e1|e1]|] eqn:Hedit1.
  { unfold call.
    destruct (bot_api env _ (EditMessageText ("❌ Error: " ++ e1)%string)) eqn:Hedit2;
      (split; [eexists; split; [by apply extends_log, extends_log|
                                by repeat apply no_file_sent_snoc; try constructor]|]);
      intros Htext; by rewrite Htext in Hedit1. }
  { split; [eexists; split; [by apply extends_log|
                             by repeat apply no_file_sent_snoc; try constructor]|].
    intros Htext. by rewrite Htext in Hedit1. }
  set (w2 := log _ w1).
  assert (extends w w2 [Ok Answer; Ok (EditMessageText "⏳ Starting download... Please wait.")])
    as Hw2 by (by apply (extends_log _ _ [_])).
  assert (exists r3 w3 tr3,
    (if decide (quality = "audio") then download_audio env url chat_id
     else bind (lift (py_int env quality))
            (fun resolution => download_video env url resolution chat_id)) w2
    = (r3, w3) /\ extends w2 w3 tr3 /\ no_file_sent tr3
    /\ (r3 = inr None
        \/ exists e c, r3 = inl (BaseException e) /\ is_file_send c = false
                       /\ bot_api env w2 c = Some (BaseException e)))
    as (r3 & w3 & tr3 & Hfetch & Hw3 & Hns3 & Hr3).
  { assert (exists r3 w3 tr3,
      download_audio env url chat_id w2 = (r3, w3) /\ extends w2 w3 tr3
      /\ no_file_sent tr3
      /\ (r3 = inr None
          \/ exists e c, r3 = inl (BaseException e) /\ is_file_send c = false
                         /\ bot_api env w2 c = Some (BaseException e))) as Haudio.
    { destruct (download_audio_raises env url chat_id w2 Hraise)
        as (r3 & w3 & tr3 & Hrun & Hext & Hns & [->|(e & -> & He)]).
      - exists (inr None), w3, tr3. split_and!; [done..|by left].
      - exists (inl (BaseException e)), w3, tr3. split_and!; [done..|].
        right. by exists e, (SendMessage chat_id audio_header). }
    destruct Hquality as [->|[resolution Hint]].
    - by rewrite decide_True by done.
    - case_decide; [done|].
      unfold bind, lift. rewrite Hint.
      destruct (download_video_raises env url resolution chat_id w2 Hraise)
        as (r3 & w3 & tr3 & Hrun & Hext & Hns & [->|(e & -> & He)]).
      + exists (inr None), w3, tr3. split_and!; [done..|by left].
      + exists (inl (BaseException e)), w3, tr3. split_and!; [done..|].
        right. by exists e, (SendMessage chat_id (video_header resolution)). }
  unfold bind at 1. rewrite Hfetch.
  pose proof (extends_trans _ _ _ _ _ Hw2 Hw3) as Hw3'.
  assert (no_file_sent ([Ok Answer; Ok (EditMessageText "⏳ Starting download... Please wait.")]
                        ++ tr3)) as Hns3'
    by (apply no_file_sent_app; [by repeat constructor|done]).
  destruct Hr3 as [->|(e & c & -> & Hc & He)].
  2: { split; [by eexists|]. intros Htext. by rewrite Htext in He. }
  cbn [not_filename].
  unfold call.
  destruct (bot_api env w3 _) as [[e3|e3]|] eqn:Hedit3.
  - destruct (bot_api env _ (EditMessageText ("❌ Error: " ++ e3)%string)) eqn:Hedit4;
      (split; [eexists; split; [by apply extends_log, extends_log|
                                by repeat apply no_file_sent_snoc]|]);
      intros Htext; by rewrite Htext in Hedit3.
  - split; [eexists; split; [by apply extends_log|by repeat apply no_file_sent_snoc]|].
    intros Htext. by rewrite Htext in Hedit3.
  - split; [eexists; split; [by apply extends_log|by repeat apply no_file_sent_snoc]|].
    intros _. split; [done|]. simpl. apply last_snoc.
Qed.

Lemma button_callback_download_raises_witness :
  (forall w1,
     (download_audio env_download_fails "https://youtu.be/abc" 7 w1).1 = inr None
     \/ exists e,
          (download_audio env_download_fails "https://youtu.be/abc" 7 w1).1
          = inl (BaseException e)
          /\ bot_api env_download_fails w1 (SendMessage 7 audio_header)
             = Some (BaseException e))
  /\ (forall w1 resolution,
        (download_video env_download_fails "https://youtu.be/abc" resolution 7 w1).1
        = inr None
        \/ exists e,
             (download_video env_download_fails "https://youtu.be/abc" resolution 7 w1).1
             = inl (BaseException e)
             /\ bot_api env_download_fails w1 (SendMessage 7 (video_header resolution))
                = Some (BaseException e))
  /\ let '(r, w') :=
       button_callback env_download_fails "dl_1080_https://youtu.be/abc" 7 world0 in
     (exists tr, extends world0 w' tr /\ no_file_sent tr)
     /\ (text_calls_return env_download_fails ->
         r = inr tt
         /\ last (trace w')
            = Some (Ok (EditMessageText "❌ Download failed. Please try again."))).
Proof.
  apply (button_callback_download_raises
           env_download_fails "dl_1080_https://youtu.be/abc" "1080" "https://youtu.be/abc"
           7 world0).
  - reflexivity.
  - reflexivity.
  - right. exists 1080. reflexivity.
  - intros w opts. by exists "ERROR: Video unavailable", (files w).
Defined.

Example download_raises_trace :
  trace (button_callback env_download_fails "dl_1080_https://youtu.be/abc" 7 world0).2
  = [Ok Answer;
     Ok (EditMessageText "⏳ Starting download... Please wait.");
     Ok (SendMessage 7 "⬇️ Downloading 1080p video...");
     Failed (ExtractInfo (video_download_opts 1080) "https://youtu.be/abc" true)
            (Exception "ERROR: Video unavailable");
     Ok (Print "Download error: ERROR: Video unavailable");
     Ok (EditMessageText "❌ Download failed. Please try again.")].
Proof. reflexivity. Qed.

(** ** Delivery and cleanup *)

(** The send of [send_file] is the call [send_call] names. *)
Lemma send_file_body
    (env : Env) (quality filename : string) (chat_id : Z) :
  (if decide (quality = "audio") then
     bind (py_open filename)
       (fun _ => call env (SendAudio chat_id filename "Here's your audio file!"))
   else
     bind (py_open filename)
       (fun _ => call env (SendVideo chat_id filename
                  ("Here's your video in " +:+ quality +:+ "p quality!"))))
  = bind (py_open filename) (fun _ => call env (send_call quality filename chat_id)).
Proof. unfold send_call. by case_decide. Qed.

(** X20: what a delivery attempt does when the transport accepts the calls
    carrying no file.  When the send goes through, the file is removed right
    after it and the status message is deleted.  When the send raises an
    Exception, the failure is reported first and the file is removed after
    the report.  When the send raises what is no Exception, nothing is
    caught: the attempt ends there and the file stays.  When the file cannot
    be opened there is nothing to send or to remove, and the failure is
    reported. *)
Theorem send_file_cleanup
    (env : Env) (quality filename : string) (chat_id : Z) (w : World) :
  text_calls_return env ->
  let c := send_call quality filename chat_id in
  let '(r, w') := send_file env quality filename chat_id w in
  if decide (filename ∈ files w) then
    match bot_api env (log (Ok (Open filename)) w) c with
    | None =>
        r = inr tt /\ files w' = files w ∖ {[ filename ]}
        /\ trace w' = trace w ++
             [Ok (Open filename); Ok c; Ok (Remove filename); Ok DeleteMessage]
    | Some (Exception e) =>
        r = inr tt /\ files w' = files w ∖ {[ filename ]}
        /\ trace w' = trace w ++
             [Ok (Open filename); Failed c (Exception e); send_error_report e;
              Ok (Remove filename)]
    | Some (BaseException e) =>
        r = inl (BaseException e) /\ files w' = files w
        /\ trace w' = trace w ++ [Ok (Open filename); Failed c (BaseException e)]
    end
  else
    r = inr tt /\ files w' = files w
    /\ trace w' = trace w ++
         [Failed (Open filename) (Exception (no_such_file (repr filename)));
          send_error_report (no_such_file (repr filename))].
Proof.
  intros Htext c. unfold send_file, try_except.
  rewrite send_file_body. fold c.
  unfold bind at 1. unfold bind at 1. unfold py_open.
  destruct (decide (filename ∈ files w)) as [Hin|Hnin].
  - unfold call at 1.
    destruct (bot_api env (log (Ok (Open filename)) w) c) as [[e|e]|] eqn:Hsend.
    + (* the send raises an Exception *)
      unfold bind at 1. unfold call at 1.
      rewrite Htext by done.
      unfold bind, os_path_exists. cbn [files log].
      rewrite bool_decide_eq_true_2 by done.
      unfold os_remove. cbn [files log]. rewrite decide_True by done.
      cbn [files trace log]. split_and!; [done..|].
      by rewrite <-!app_assoc.
    + (* the send raises what is not caught *)
      cbn [files trace log]. split_and!; [done..|].
      by rewrite <-!app_assoc.
    + (* the send returns *)
      unfold bind at 1. unfold os_remove at 1. cbn [files log].
      rewrite decide_True by done.
      unfold call. rewrite Htext by done.
      cbn [files trace log]. split_and!; [done..|].
      by rewrite <-!app_assoc.
  - (* the file is not there *)
    unfold bind at 1. unfold call at 1. rewrite Htext by done.
    unfold bind, os_path_exists. cbn [files log].
    rewrite bool_decide_eq_false_2 by done.
    unfold ret. cbn [files trace log]. split_and!; [done..|].
    by rewrite <-!app_assoc.
Qed.

Lemma send_file_cleanup_witness :
  let c := send_call "1080" "temp_downloads/T.mp4" 7 in
  let w := mkWorld {[ "temp_downloads/T.mp4" ]} [] in
  let '(r, w') := send_file env_send_fails "1080" "temp_downloads/T.mp4" 7 w in
  if decide ("temp_downloads/T.mp4" ∈ files w) then
    match bot_api env_send_fails (log (Ok (Open "temp_downloads/T.mp4")) w) c with
    | None =>
        r = inr tt /\ files w' = files w ∖ {[ "temp_downloads/T.mp4" ]}
        /\ trace w' = trace w ++
             [Ok (Open "temp_downloads/T.mp4"); Ok c;
              Ok (Remove "temp_downloads/T.mp4"); Ok DeleteMessage]
    | Some (Exception e) =>
        r = inr tt /\ files w' = files w ∖ {[ "temp_downloads/T.mp4" ]}
        /\ trace w' = trace w ++
             [Ok (Open "temp_downloads/T.mp4"); Failed c (Exception e);
              send_error_report e; Ok (Remove "temp_downloads/T.mp4")]
    | Some (BaseException e) =>
        r = inl (BaseException e) /\ files w' = files w
        /\ trace w' = trace w ++
             [Ok (Open "temp_downloads/T.mp4"); Failed c (BaseException e)]
    end
  else
    r = inr tt /\ files w' = files w
    /\ trace w' = trace w ++
         [Failed (Open "temp_downloads/T.mp4")
                 (Exception (no_such_file (repr "temp_downloads/T.mp4")));
          send_error_report (no_such_file (repr "temp_downloads/T.mp4"))].
Proof.
  apply (send_file_cleanup env_send_fails "1080" "temp_downloads/T.mp4" 7
           (mkWorld {[ "temp_downloads/T.mp4" ]} [])).
  intros w c Hc. simpl. by rewrite Hc.
Defined.

(** X21: a delivery attempt leaves the file on disk in one situation only:
    the file was there, the send raised, and either what it raised is no
    Exception - nothing catches it - or the report of the failure raised as
    well, so that the removal after the report was not reached.  A send that
    goes through always has the file removed, whatever the deletion of the
    status message does afterwards. *)
Theorem send_file_leak
    (env : Env) (quality filename : string) (chat_id : Z) (w : World) :
  let c := send_call quality filename chat_id in
  let w1 := log (Ok (Open filename)) w in
  filename ∈ files (send_file env quality filename chat_id w).2
  <-> filename ∈ files w
      /\ match bot_api env w1 c with
         | None => False
         | Some (BaseException _) => True
         | Some (Exception e) =>
             bot_api env (log (Failed c (Exception e)) w1)
                     (EditMessageText ("❌ Error sending file: " +:+ e))
             <> None
         end.
Proof.
  intros c w1. unfold send_file, try_except.
  rewrite send_file_body. fold c.
  unfold bind at 1. unfold bind at 1. unfold py_open.
  destruct (decide (filename ∈ files w)) as [Hin|Hnin].
  - fold w1. unfold call at 1.
    destruct (bot_api env w1 c) as [[e|e]|] eqn:Hsend.
    + (* the send raises an Exception: the report, then the removal *)
      unfold bind at 1. unfold call at 1.
      destruct (bot_api env _ (EditMessageText _)) as [r|] eqn:Hreport.
      * (* the report raises: the removal is not reached *)
        destruct r; simpl; (split; [by intros _|by intros _]).
      * unfold bind, os_path_exists. cbn [files log w1].
        rewrite bool_decide_eq_true_2 by done.
        unfold os_remove. cbn [files log]. rewrite decide_True by done.
        cbn [files snd]. split; [|by intros [_ ?]].
        intros [_ Hne]%elem_of_difference. by destruct Hne; apply elem_of_singleton.
    + (* the send raises what is not caught *)
      simpl. by split.
    + (* the send returns: the removal, then the deletion of the message *)
      unfold bind at 1. unfold os_remove at 1. cbn [files log w1].
      rewrite decide_True by done.
      unfold call at 1.
      destruct (bot_api env _ DeleteMessage) as [[e|e]|] eqn:Hdelete.
      * (* the deletion raises an Exception: it is reported *)
        unfold bind at 1. unfold call at 1.
        destruct (bot_api env _ (EditMessageText _)) as [[r|r]|] eqn:Hreport;
          unfold bind, os_path_exists; cbn [files log snd fst].
        -- split; [|by intros [_ []]].
           intros [_ Hne]%elem_of_difference. by destruct Hne; apply elem_of_singleton.
        -- split; [|by intros [_ []]].
           intros [_ Hne]%elem_of_difference. by destruct Hne; apply elem_of_singleton.
        -- rewrite bool_decide_eq_false_2
             by (intros [_ Hne]%elem_of_difference; by destruct Hne; apply elem_of_singleton).
           unfold ret. cbn [files snd]. split; [|by intros [_ []]].
           intros [_ Hne]%elem_of_difference. by destruct Hne; apply elem_of_singleton.
      * cbn [files log snd]. split; [|by intros [_ []]].
        intros [_ Hne]%elem_of_difference. by destruct Hne; apply elem_of_singleton.
      * cbn [files log snd]. split; [|by intros [_ []]].
        intros [_ Hne]%elem_of_difference. by destruct Hne; apply elem_of_singleton.
  - (* the file is not there: nothing is written *)
    unfold bind at 1. unfold call at 1.
    destruct (bot_api env _ (EditMessageText _)) as [[r|r]|] eqn:Hreport;
      unfold bind, os_path_exists; cbn [files log snd fst].
    + split; [done|by intros [? _]].
    + split; [done|by intros [? _]].
    + rewrite bool_decide_eq_false_2 by done. unfold ret. cbn [files snd].
      split; [done|by intros [? _]].
Qed.

(** On a send failure the file is removed after the failure was reported,
    not before. *)
Example send_failure_reported_before_cleanup :
  let tr :=
    trace (button_callback env_send_fails "dl_1080_https://youtu.be/abc" 7 world0).2 in
  let report := send_error_report "Request Entity Too Large" in
  let cleanup := Ok (Remove "temp_downloads/T.mp4") in
  tr = [Ok Answer;
        Ok (EditMessageText "⏳ Starting download... Please wait.");
        Ok (SendMessage 7 "⬇️ Downloading 1080p video...");
        Ok (ExtractInfo (video_download_opts 1080) "https://youtu.be/abc" true);
        Ok (Rename "temp_downloads/T.webm" "temp_downloads/T.mp4");
        Ok (Open "temp_downloads/T.mp4");
        Failed (SendVideo 7 "temp_downloads/T.mp4" "Here's your video in 1080p quality!")
               (Exception "Request Entity Too Large");
        report;
        cleanup]
  /\ occurs_before report cleanup tr
  /\ ~ occurs_before cleanup report tr.
Proof.
  assert (trace (button_callback env_send_fails "dl_1080_https://youtu.be/abc" 7 world0).2
          = [Ok Answer;
             Ok (EditMessageText "⏳ Starting download... Please wait.");
             Ok (SendMessage 7 "⬇️ Downloading 1080p video...");
             Ok (ExtractInfo (video_download_opts 1080) "https://youtu.be/abc" true);
             Ok (Rename "temp_downloads/T.webm" "temp_downloads/T.mp4");
             Ok (Open "temp_downloads/T.mp4");
             Failed (SendVideo 7 "temp_downloads/T.mp4"
                       "Here's your video in 1080p quality!")
                    (Exception "Request Entity Too Large");
             send_error_report "Request Entity Too Large";
             Ok (Remove "temp_downloads/T.mp4")]) as Htr by (vm_compute; reflexivity).
  cbv zeta. rewrite Htr. split_and!; [done| |].
  - exists 7%nat, 8%nat. split_and!; [done..|lia].
  - intros (i & j & Hi & Hj & Hlt).
    do 9 (destruct i as [|i]; [try discriminate Hi|]); [|discriminate Hi].
    do 8 (destruct j as [|j]; [try discriminate Hj; lia|]).
    destruct j; discriminate Hj.
Qed.

(** C9: the code does not do what the claim says.  The claim has the local
    file deleted after every delivery attempt, the send succeeding or
    failing, and on a failure the cleanup before the report.  On the success
    path the code removes the file before it touches the status message; on
    the failure path it awaits the report first and removes the file after
    it.  So when the transport refuses the file and the report of that
    failure raises as well, the removal is not reached: the outer handler
    reports the second exception and the file stays on disk. *)
Theorem report_raises_file_remains :
  let '(r, w') :=
    button_callback env_report_fails "dl_1080_https://youtu.be/abc" 7 world0 in
  r = inr tt
  /\ "temp_downloads/T.mp4" ∈ files w'
  /\ trace w'
     = [Ok Answer;
        Ok (EditMessageText "⏳ Starting download... Please wait.");
        Ok (SendMessage 7 "⬇️ Downloading 1080p video...");
        Ok (ExtractInfo (video_download_opts 1080) "https://youtu.be/abc" true);
        Ok (Rename "temp_downloads/T.webm" "temp_downloads/T.mp4");
        Ok (Open "temp_downloads/T.mp4");
        Failed (SendVideo 7 "temp_downloads/T.mp4" "Here's your video in 1080p quality!")
               (Exception "Request Entity Too Large");
        Failed (EditMessageText "❌ Error sending file: Request Entity Too Large")
               (Exception "Timed out");
        Ok (EditMessageText "❌ Error: Timed out")].
Proof.
  vm_compute. split_and!; reflexivity.
Qed.

(** ** handle_message *)

(** X1: every keyboard [handle_message] sends is the quality menu of a non-empty
    reduced map, and so has 2 to 4 rows, the audio-only button last. *)
Theorem handle_message_menu (env : Env) (message_text : string) (w : World) :
  exists tr,
    extends w (handle_message env message_text w).2 tr
    /\ Forall (fun x => match entry_call x with
                        | ReplyText shown (Some buttons) =>
                            is_quality_menu env message_text shown buttons
                            /\ (2 <= length buttons <= 4)%nat
                            /\ last buttons
                               = Some [audio_button (py_strip env message_text)]
                        | _ => True
                        end) tr.
Proof.
  unfold handle_message, try_except, bind, call, get_video_info, lift.
  destruct (negb _) eqn:Hhost.
  all: repeat (match goal with
               | |- context [bot_api ?e ?w0 ?c] =>
                   destruct (bot_api e w0 c) as [[?|?]|] eqn:?
               | |- context [ydl_info ?e ?w0 ?u] =>
                   destruct (ydl_info e w0 u) as [[?|?]|[?|]] eqn:?
               | |- context [info_text ?i] => destruct (info_text i) eqn:?
               | |- context [get_available_formats ?i] =>
                   destruct (get_available_formats i) eqn:?
               | |- context [bool_decide ?P] => destruct (bool_decide P) eqn:?
               end; cbn beta iota).
  all: (eexists; split;
        [unfold extends; cbn [trace log snd]; rewrite <-?app_assoc; reflexivity|]).
  all: repeat match goal with
              | |- Forall _ (_ ++ _) => apply Forall_app; split
              | |- Forall _ (_ :: _) => constructor
              | |- Forall _ [] => constructor
              end; cbn [entry_call]; try exact I.
  all: match goal with
       | H : bool_decide (?l = []) = false |- _ => apply bool_decide_eq_false in H
       end.
  all: split; [by eexists _, _|]; split; [|apply quality_buttons_last].
  all: rewrite quality_buttons_length.
  all: match goal with
       | H : ?l <> [] |- _ => destruct l; [done|]; cbn [length]; lia
       end.
Qed.

(** X2: a message that names neither host gets the one reply asking for a valid
    URL; the metadata of nothing is fetched. *)
Theorem handle_message_invalid_url (env : Env) (message_text : string) (w : World) :
  PyStr.contains (py_strip env message_text) "youtube.com" = false ->
  PyStr.contains (py_strip env message_text) "youtu.be" = false ->
  handle_message env message_text w
  = call env (ReplyText "Please send a valid YouTube URL." None) w.
Proof. intros H1 H2. unfold handle_message. by rewrite H1, H2. Qed.

Lemma handle_message_invalid_url_witness :
  handle_message env_ok "hello" world0
  = call env_ok (ReplyText "Please send a valid YouTube URL." None) world0.
Proof. apply handle_message_invalid_url; reflexivity. Defined.

(** The spec's end-to-end scenario: the sizes shown are in units of
    1024 * 1024 bytes. *)
Example handle_message_scenario :
  trace (handle_message env_ok "https://youtu.be/abc" world0).2
  = [Ok (ReplyText "🔍 Getting video information..." None);
     Ok (ExtractInfo (mkYdlOpts true false None None None [])
                     "https://youtu.be/abc" false);
     Ok (ReplyText
           ("📽 <b>T</b>" +:+ PyStr.nl +:+ "👤 Channel: U" +:+ PyStr.nl
            +:+ "⏱ Duration: 0:02:05" +:+ PyStr.nl
            +:+ "📅 Upload date: N/A" +:+ PyStr.nl +:+ "👀 Views: N/A")
           (Some [[mkButton "1080p (76.3MB)" "dl_1080_https://youtu.be/abc"];
                  [mkButton "720p (28.6MB)" "dl_720_https://youtu.be/abc"];
                  [mkButton "🎵 Audio Only (MP3)" "dl_audio_https://youtu.be/abc"]]))].
Proof. reflexivity. Qed.

Example button_callback_audio :
  button_callback env_ok "dl_audio_https://youtu.be/abc" 7 world0
  = (inr tt,
     mkWorld (∅ ∪ {[ "temp_downloads/T.mp3" ]} ∖ {[ "temp_downloads/T.mp3" ]})
       [Ok Answer;
        Ok (EditMessageText "⏳ Starting download... Please wait.");
        Ok (SendMessage 7 "⬇️ Downloading audio...");
        Ok (ExtractInfo audio_download_opts "https://youtu.be/abc" true);
        Ok (Open "temp_downloads/T.mp3");
        Ok (SendAudio 7 "temp_downloads/T.mp3" "Here's your audio file!");
        Ok (Remove "temp_downloads/T.mp3");
        Ok DeleteMessage]).
Proof. reflexivity. Qed.

(** ** download_video *)

(** X3: every path [download_video] returns ends in ".mp4": either the
    collaborator reported such a name, or the file it reported was there and
    has been renamed to the name with the extension replaced. *)
Theorem download_video_mp4
    (env : Env) (url : string) (resolution chat_id : Z) (w w' : World) (path : string) :
  download_video env url resolution chat_id w = (inr (Some path), w') ->
  PyStr.endswith path ".mp4" = true
  /\ not_filename (Some path) = false
  /\ exists reported fs,
       ydl_download env
         (log (Ok (SendMessage chat_id
                     ("⬇️ Downloading " +:+ PyStr.of_int resolution +:+ "p video...")))
              w)
         (video_download_opts resolution) url
       = (inr reported, fs)
       /\ (PyStr.endswith reported ".mp4" = true /\ path = reported /\ files w' = fs
           \/ PyStr.endswith reported ".mp4" = false
              /\ path = (OsPath.splitext reported).1 +:+ ".mp4"
              /\ reported ∈ fs
              /\ files w' = fs ∖ {[ reported ]} ∪ {[ path ]}).
Proof.
  unfold download_video, try_except, bind, call, extract_and_prepare, print, ret.
  destruct (bot_api env w _) as [[e|e]|]; [intros [=]..|].
  destruct (ydl_download env _ _ _) as [[[e|e]|reported] fs] eqn:Hdl; [intros [=]..|].
  destruct (PyStr.endswith reported ".mp4") eqn:Hext; cbn [negb].
  - intros [= <- <-]. split_and!; [done|by destruct reported|].
    exists reported, fs. split; [done|]. by left.
  - unfold os_rename. cbn [files].
    destruct (decide (reported ∈ fs)) as [Hin|Hnin]; [|intros [=]].
    intros [= <- <-]. split_and!.
    + apply endswith_app.
    + by destruct (OsPath.splitext reported).1.
    + exists reported, fs. split; [done|]. right. by split_and!.
Qed.

Lemma download_video_mp4_witness :
  let w' := (download_video env_ok "https://youtu.be/abc" 1080 7 world0).2 in
  PyStr.endswith "temp_downloads/T.mp4" ".mp4" = true
  /\ not_filename (Some "temp_downloads/T.mp4") = false
  /\ exists reported fs,
       ydl_download env_ok
         (log (Ok (SendMessage 7
                     ("⬇️ Downloading " +:+ PyStr.of_int 1080 +:+ "p video...")))
              world0)
         (video_download_opts 1080) "https://youtu.be/abc"
       = (inr reported, fs)
       /\ (PyStr.endswith reported ".mp4" = true /\ "temp_downloads/T.mp4" = reported
           /\ files w' = fs
           \/ PyStr.endswith reported ".mp4" = false
              /\ "temp_downloads/T.mp4" = (OsPath.splitext reported).1 +:+ ".mp4"
              /\ reported ∈ fs
              /\ files w' = fs ∖ {[ reported ]} ∪ {[ "temp_downloads/T.mp4" ]}).
Proof.
  intros w'.
  apply (download_video_mp4 env_ok "https://youtu.be/abc" 1080 7 world0 w'
           "temp_downloads/T.mp4").
  reflexivity.
Defined.

(** ** The order of entries with equal sort keys *)

(** X4: the sorted map has the entries of [unique_resolutions], and those of one
    sort key - the heights None and "unknown" and the height 0 share the key
    0 - in the order in which their heights were first met. *)
Theorem sorted_resolutions_stable (l : list Format) (k : Z) :
  sorted_resolutions l ≡ₚ unique_resolutions l
  /\ filter (fun item => sort_key item.1 = k) (sorted_resolutions l)
     = filter (fun item => sort_key item.1 = k) (unique_resolutions l).
Proof.
  split; [apply sorted_resolutions_perm|].
  apply (sorted_reverse_stable (fun item : Res * Format => sort_key item.1)).
Qed.

Example unknown_heights_order :
  sorted_resolutions
    [mkFormat "a" Absent Absent Absent;
     mkFormat "b" Absent (Val 360) Absent;
     mkFormat "c" Absent Null Absent;
     mkFormat "d" Absent (Val (-1)) Absent]
  = [(ResInt 360, mkFormat "b" Absent (Val 360) Absent);
     (ResUnknown, mkFormat "a" Absent Absent Absent);
     (ResNone, mkFormat "c" Absent Null Absent);
     (ResInt (-1), mkFormat "d" Absent (Val (-1)) Absent)].
Proof. reflexivity. Qed.

(** ** More on get_available_formats *)

Lemma sorted_resolutions_video (l : list Format) (res : Res) (f : Format) :
  (res, f) ∈ sorted_resolutions l ->
  f ∈ l /\ is_video f = true /\ res_of f = res.
Proof.
  rewrite sorted_resolutions_perm. intros Hin.
  destruct (unique_resolutions_inv l) as [Hnd Hbest _].
  apply elem_of_lookup in Hin; [|done].
  destruct (Hbest _ _ Hin) as (pre & post & Heq & Hres & _).
  assert (f ∈ filter (fun g => is_video g = true) l) as Hf.
  { rewrite Heq. apply elem_of_app. right. apply list_elem_of_here. }
  apply list_elem_of_filter in Hf as [Hv Hf]. done.
Qed.

Lemma sorted_resolutions_keys (l : list Format) (res : Res) :
  res ∈ (sorted_resolutions l).*1
  <-> res ∈ res_of <$> filter (fun g => is_video g = true) l.
Proof.
  split.
  - intros [[res' f] [-> Hin]]%list_elem_of_fmap.
    apply sorted_resolutions_video in Hin as (Hf & Hv & <-). simpl.
    apply list_elem_of_fmap_2. by apply list_elem_of_filter.
  - intros [g [-> [Hv Hg]%list_elem_of_filter]]%list_elem_of_fmap.
    rewrite sorted_resolutions_perm.
    destruct (unique_resolutions_inv l) as [Hnd _ Hall].
    destruct (Hall g Hg Hv) as [f Hf].
    apply elem_of_lookup in Hf; [|done].
    by apply (list_elem_of_fmap_2 fst) in Hf.
Qed.

Lemma sorted_resolutions_nodup (l : list Format) : NoDup (sorted_resolutions l).*1.
Proof.
  rewrite sorted_resolutions_perm. by destruct (unique_resolutions_inv l).
Qed.

(** X5: [get_available_formats] raises exactly when the 'formats' key holds
    None.  Otherwise its output has one entry for each distinct height among
    the candidates with a video codec: as many entries as there are such
    heights, and none exactly when no candidate has a video codec. *)
Theorem get_available_formats_size (info : Info) :
  (formats info = Null <-> exists e, get_available_formats info = inl e)
  /\ (forall out,
        get_available_formats info = inr out ->
        length out = length (remove_dups (res_of <$> video_candidates info))
        /\ (out = [] <-> video_candidates info = [])).
Proof.
  split.
  - unfold get_available_formats. destruct (formats info); split;
      try done; try (by intros [? ?]); by eexists.
  - intros out ->%get_available_formats_inr.
    assert ((sorted_resolutions (candidates info)).*1
            ≡ₚ remove_dups (res_of <$> video_candidates info)) as Hperm.
    { apply NoDup_Permutation;
        [apply sorted_resolutions_nodup|apply NoDup_remove_dups|].
      intros res. rewrite elem_of_remove_dups. apply sorted_resolutions_keys. }
    assert (length (sorted_resolutions (candidates info))
            = length (remove_dups (res_of <$> video_candidates info))) as Hlen
      by (by rewrite <-Hperm, length_fmap).
    split; [done|]. split.
    + intros Hnil. rewrite Hnil in Hlen. simpl in Hlen.
      destruct (video_candidates info) as [|g V] eqn:HV; [done|].
      exfalso. apply symmetry, nil_length_inv in Hlen.
      assert (res_of g ∈ remove_dups (res_of <$> g :: V)) as Hg
        by (apply elem_of_remove_dups, list_elem_of_fmap_2, list_elem_of_here).
      rewrite Hlen in Hg. by apply elem_of_nil in Hg.
    + intros HV. rewrite HV in Hlen. by apply nil_length_inv in Hlen.
Qed.

Example only_audio_candidates :
  get_available_formats (mkInfo (Val "T") (Val "U") (Val 125) Absent Absent (Val [faudio]))
  = inr [].
Proof. reflexivity. Qed.

Lemma set_new {K V : Type} `{EqDecision K} (d : list (K * V)) (k : K) (v : V) :
  Dict.lookup k d = None -> Dict.set k v d = d ++ [(k, v)].
Proof.
  induction d as [|[k0 v0] d IH]; simpl; [done|].
  case_decide; [done|]. intros Hd. by rewrite IH.
Qed.

(** The loop leaves a list as it is when its heights are pairwise distinct
    and all its candidates have a video codec. *)
Lemma unique_resolutions_values (d : list (Res * Format)) :
  NoDup d.*1 ->
  (forall res f, (res, f) ∈ d -> is_video f = true /\ res_of f = res) ->
  unique_resolutions d.*2 = d.
Proof.
  induction d as [|[res f] d IH] using rev_ind; [done|].
  rewrite !fmap_app. simpl. intros [Hnd [Hnew _]]%NoDup_app Hd.
  unfold unique_resolutions in *. rewrite fold_left_app. simpl.
  rewrite IH; [|done|by intros ? ? ?; apply Hd, elem_of_app; left].
  destruct (Hd res f) as [Hv Hres];
    [apply elem_of_app; right; apply list_elem_of_here|].
  unfold visit. rewrite Hv, Hres.
  assert (Dict.lookup res d = None) as Hnone.
  { apply lookup_None_keys. intros Hin. apply (Hnew res Hin), list_elem_of_here. }
  assert (Dict.mem res d = false) as ->.
  { destruct (Dict.mem res d) eqn:Hmem; [|done].
    apply mem_keys in Hmem. by apply lookup_None_keys in Hnone. }
  simpl. by apply set_new.
Qed.

(** Sorting a list that is in descending order leaves it as it is. *)
Lemma sorted_reverse_id {A} (key : A -> Z) (l : list A) :
  StronglySorted (desc key) l -> sorted_reverse key l = l.
Proof.
  induction 1 as [|x l Hl IH Hx]; simpl; [done|].
  rewrite IH. destruct l as [|y l]; simpl; [done|].
  apply Forall_cons in Hx as [Hy _]. unfold desc in Hy.
  by rewrite (proj2 (Z.leb_le _ _)).
Qed.

(** X6: reducing is idempotent: the candidates kept by
    [get_available_formats], given to it again in their order, come back
    unchanged. *)
Theorem get_available_formats_idempotent (info : Info) (out : list (Res * Format)) :
  get_available_formats info = inr out ->
  get_available_formats
    (mkInfo (title info) (uploader info) (duration info) (upload_date info)
            (view_count info) (Val out.*2))
  = inr out.
Proof.
  intros ->%get_available_formats_inr.
  unfold get_available_formats, candidates. cbn [formats]. f_equal.
  unfold sorted_resolutions at 1.
  rewrite unique_resolutions_values.
  - apply sorted_reverse_id, sorted_reverse_sorted.
  - apply sorted_resolutions_nodup.
  - intros res f Hin. by apply sorted_resolutions_video in Hin as (_ & ? & ?).
Qed.

Lemma get_available_formats_idempotent_witness :
  get_available_formats
    (mkInfo (Val "T") (Val "U") (Val 125) Absent Absent (Val [f1080b; f720]))
  = inr [(ResInt 1080, f1080b); (ResInt 720, f720)].
Proof.
  apply (get_available_formats_idempotent
           scenario [(ResInt 1080, f1080b); (ResInt 720, f720)]).
  reflexivity.
Defined.

Lemma strongly_sorted_app_inv {A} (R : A -> A -> Prop) (l1 l2 : list A) :
  StronglySorted R (l1 ++ l2) ->
  (forall x1 x2, x1 ∈ l1 -> x2 ∈ l2 -> R x1 x2) /\ StronglySorted R l1.
Proof.
  induction l1 as [|x l1 IH]; simpl.
  - intros _. split; [by intros ? ? ?%elem_of_nil|constructor].
  - intros Hs. inversion Hs as [|? ? Hs' Hx]; subst.
    destruct (IH Hs') as [Hall Hs1].
    apply Forall_app in Hx as [Hx1 Hx2]. rewrite Forall_forall in Hx2.
    split; [|by constructor].
    intros x1 x2 [->|Hin]%elem_of_cons Hx2'; [by apply Hx2|by apply Hall].
Qed.

(** X7: the three entries the menu shows are the largest: no entry left out
    of the menu has a larger sort key than an entry shown, and the entries
    shown come in descending order. *)
Theorem menu_shows_largest (info : Info) (out : list (Res * Format)) :
  get_available_formats info = inr out ->
  (forall shown hidden,
     shown ∈ take 3 out -> hidden ∈ drop 3 out ->
     sort_key hidden.1 <= sort_key shown.1)
  /\ StronglySorted (desc (fun item => sort_key item.1)) (take 3 out).
Proof.
  intros ->%get_available_formats_inr.
  pose proof (sorted_reverse_sorted (fun item : Res * Format => sort_key item.1)
                (unique_resolutions (candidates info))) as Hs.
  fold (sorted_resolutions (candidates info)) in Hs.
  rewrite <-(take_drop 3 (sorted_resolutions (candidates info))) in Hs.
  apply strongly_sorted_app_inv in Hs as (Hall & Htake).
  split; [|done].
  intros shown hidden Hshown Hhidden. by apply Hall.
Qed.

Lemma menu_shows_largest_witness :
  let out := [(ResInt 1080, f1080b); (ResInt 720, f720)] in
  (forall shown hidden,
     shown ∈ take 3 out -> hidden ∈ drop 3 out ->
     sort_key hidden.1 <= sort_key shown.1)
  /\ StronglySorted (desc (fun item => sort_key item.1)) (take 3 out).
Proof. apply (menu_shows_largest scenario). reflexivity. Defined.

(** ** More on the selection token *)

Lemma split_head_no_sep (sep : ascii) (s q : string) (tl : list string) :
  PyStr.split sep s = q :: tl -> PyStr.mem sep q = false.
Proof.
  revert q tl. induction s as [|c s IH]; intros q tl; simpl.
  - by intros [= <- <-].
  - destruct (Ascii.eqb c sep) eqn:Hc; [by intros [= <- <-]|].
    destruct (PyStr.split sep s) as [|hd tl'] eqn:Hs.
    + intros [= <- <-]. simpl. by rewrite Hc.
    + intros [= <- <-]. simpl. rewrite Hc. by apply (IH hd tl').
Qed.

Lemma startswith_inv (s p : string) :
  PyStr.startswith s p = true -> exists rest, s = p +:+ rest.
Proof.
  unfold PyStr.startswith. revert s. induction p as [|c p IH]; intros s.
  - intros _. by exists s.
  - destruct s as [|c' s]; simpl; [done|].
    destruct (ascii_dec c c') as [<-|]; [|done].
    intros [rest ->]%IH. by exists rest.
Qed.

(** X8: decoding a payload that starts with "dl_" never fails.  The quality
    it gives has no underscore, and quality and URL are the one way to read
    the payload as [dl_<quality>_<url>] - or as [dl_<quality>] with an empty
    URL, when the payload has no second underscore. *)
Theorem decode_callback_total (data : string) :
  PyStr.startswith data "dl_" = true ->
  exists quality url,
    decode_callback data = inr (quality, url)
    /\ PyStr.mem "_" quality = false
    /\ (data = encode_callback quality url
        \/ url = "" /\ data = "dl_" +:+ quality).
Proof.
  intros [rest ->]%startswith_inv. unfold decode_callback.
  change ("dl_" +:+ rest) with ("dl" +:+ String "_" rest).
  rewrite (split_field "_" "dl") by done.
  pose proof (join_split "_" rest) as Hjoin.
  destruct (PyStr.split "_" rest) as [|quality tl] eqn:Hsplit;
    [by apply split_not_nil in Hsplit|].
  exists quality, (PyStr.join "_" tl).
  split_and!; [done|by apply split_head_no_sep in Hsplit|].
  destruct tl as [|p tl].
  - right. simpl in *. by subst rest.
  - left. unfold encode_callback. rewrite <-Hjoin. done.
Qed.

Lemma decode_callback_total_witness :
  exists quality url,
    decode_callback "dl_audio" = inr (quality, url)
    /\ PyStr.mem "_" quality = false
    /\ ("dl_audio" = encode_callback quality url
        \/ url = "" /\ "dl_audio" = "dl_" +:+ quality).
Proof. apply decode_callback_total. reflexivity. Defined.

(** X9: every button of the menu carries a payload the selection handler
    accepts and reads back as the URL of the message and either "audio" or
    the height of one of the first three entries - the height its label
    starts with. *)
Theorem quality_buttons_decode
    (reduced : list (Res * Format)) (url : string) (row : list Button) (b : Button) :
  row ∈ quality_buttons reduced url -> b ∈ row ->
  PyStr.startswith (callback_data b) "dl_" = true
  /\ exists quality,
       decode_callback (callback_data b) = inr (quality, url)
       /\ (quality = "audio" /\ b = audio_button url
           \/ exists res fmt,
                (res, fmt) ∈ take 3 reduced /\ quality = str_res res
                /\ PyStr.startswith (text b) (quality +:+ "p") = true).
Proof.
  unfold quality_buttons.
  intros [Hrow| ->%list_elem_of_singleton]%elem_of_app Hb.
  - apply list_elem_of_fmap in Hrow as [[res fmt] [-> Hitem]].
    apply list_elem_of_singleton in Hb as ->.
    destruct (video_button_decodes url res fmt) as [Hstart Hdec].
    split; [done|]. exists (str_res res). split; [done|]. right.
    exists res, fmt. split_and!; [done..|].
    cbn [video_button text]. rewrite <-append_assoc. apply startswith_app.
  - apply list_elem_of_singleton in Hb as ->.
    destruct (audio_button_decodes url) as [Hstart Hdec].
    split; [done|]. exists "audio". split; [done|]. by left.
Qed.

Lemma quality_buttons_decode_witness :
  let url := "https://youtu.be/abc" in
  let b := mkButton "720p (28.6MB)" "dl_720_https://youtu.be/abc" in
  PyStr.startswith (callback_data b) "dl_" = true
  /\ exists quality,
       decode_callback (callback_data b) = inr (quality, url)
       /\ (quality = "audio" /\ b = audio_button url
           \/ exists res fmt,
                (res, fmt) ∈ take 3 [(ResInt 1080, f1080b); (ResInt 720, f720)]
                /\ quality = str_res res
                /\ PyStr.startswith (text b) (quality +:+ "p") = true).
Proof.
  intros url b.
  apply (quality_buttons_decode [(ResInt 1080, f1080b); (ResInt 720, f720)] url [b] b).
  - apply list_elem_of_further, list_elem_of_here.
  - apply list_elem_of_here.
Defined.

(** ** What the fetches and the handlers let escape *)

Lemma try_except_inv {A} (body : M A) (handler : Exn -> M A) (w w' : World)
    (r : Raised + A) :
  try_except body handler w = (r, w') ->
  (exists a, body w = (inr a, w') /\ r = inr a)
  \/ (exists e, body w = (inl (BaseException e), w') /\ r = inl (BaseException e))
  \/ (exists e w0, body w = (inl (Exception e), w0) /\ handler e w0 = (r, w')).
Proof.
  unfold try_except. destruct (body w) as [[[e|e]|a] w0] eqn:Hbody.
  - intros Hh. right. right. by exists e, w0.
  - intros [= <- <-]. right. left. by exists e.
  - intros [= <- <-]. left. by exists a.
Qed.

Lemma call_inl_inv (env : Env) (c : Call) (w w' : World) (e : Raised) :
  call env c w = (inl e, w') -> last (trace w') = Some (Failed c e).
Proof.
  unfold call. destruct (bot_api env w c); intros [= <- <-]; simpl.
  apply last_snoc.
Qed.

(** What is no Exception comes from the last call: the steps the handlers
    are made of, and what binds them. *)
Lemma base_last_ret {A} (a : A) : base_from_last_call (ret a).
Proof. by intros w w' e [=]. Qed.

Lemma base_last_lift {A} (r : Exn + A) : base_from_last_call (lift r).
Proof. intros w w' e. unfold lift. by destruct r; intros [=]. Qed.

Lemma base_last_print (line : string) : base_from_last_call (print line).
Proof. by intros w w' e [=]. Qed.

Lemma base_last_call (env : Env) (c : Call) : base_from_last_call (call env c).
Proof. intros w w' e ?%call_inl_inv. by exists c. Qed.

Lemma base_last_extract (env : Env) (opts : YdlOpts) (url : string) :
  base_from_last_call (extract_and_prepare env opts url).
Proof.
  intros w w' e. unfold extract_and_prepare.
  destruct (ydl_download env w opts url) as [[r|reported] fs]; intros [= -> <-]; simpl.
  eexists. apply last_snoc.
Qed.

Lemma base_last_get_video_info (env : Env) (url : string) :
  base_from_last_call (get_video_info env url).
Proof.
  intros w w' e. unfold get_video_info.
  destruct (ydl_info env w url) as [[r|r]|info]; intros [= -> <-]; simpl.
  eexists. apply last_snoc.
Qed.

Lemma base_last_py_open (path : string) : base_from_last_call (py_open path).
Proof. intros w w' e. unfold py_open. by case_decide; intros [=]. Qed.

Lemma base_last_os_remove (path : string) : base_from_last_call (os_remove path).
Proof. intros w w' e. unfold os_remove. by case_decide; intros [=]. Qed.

Lemma base_last_os_rename (src dst : string) : base_from_last_call (os_rename src dst).
Proof. intros w w' e. unfold os_rename. by case_decide; intros [=]. Qed.

Lemma base_last_os_path_exists (path : string) :
  base_from_last_call (os_path_exists path).
Proof. by intros w w' e [=]. Qed.

Lemma base_last_bind {A B} (m : M A) (k : A -> M B) :
  base_from_last_call m -> (forall a, base_from_last_call (k a)) ->
  base_from_last_call (bind m k).
Proof.
  intros Hm Hk w w' e. unfold bind.
  destruct (m w) as [[r|a] w0] eqn:Hrun.
  - intros [= -> <-]. by eapply Hm.
  - apply Hk.
Qed.

Lemma base_last_try_except {A} (body : M A) (handler : Exn -> M A) :
  base_from_last_call body -> (forall e, base_from_last_call (handler e)) ->
  base_from_last_call (try_except body handler).
Proof.
  intros Hbody Hhandler w w' e
    [(a & _ & [=])|[(e0 & Hrun & [= ->])|(e0 & w0 & _ & Hrun)]]%try_except_inv.
  - by eapply Hbody.
  - by eapply Hhandler.
Qed.

Ltac base_last :=
  repeat first
    [ apply base_last_ret | apply base_last_lift | apply base_last_print
    | apply base_last_call | apply base_last_extract | apply base_last_get_video_info
    | apply base_last_py_open | apply base_last_os_remove | apply base_last_os_rename
    | apply base_last_os_path_exists
    | apply base_last_bind; [|intros ?]
    | apply base_last_try_except; [|intros ?]
    | match goal with
      | |- base_from_last_call (if ?b then _ else _) => destruct b
      | |- base_from_last_call (match ?x with _ => _ end) => destruct x
      end ].

Lemma base_last_download_video (env : Env) (url : string) (resolution chat_id : Z) :
  base_from_last_call (download_video env url resolution chat_id).
Proof. unfold download_video. base_last. Qed.

Lemma base_last_download_audio (env : Env) (url : string) (chat_id : Z) :
  base_from_last_call (download_audio env url chat_id).
Proof. unfold download_audio. base_last. Qed.

Lemma base_last_send_file (env : Env) (quality filename : string) (chat_id : Z) :
  base_from_last_call (send_file env quality filename chat_id).
Proof. unfold send_file. base_last. Qed.

Lemma base_last_handle_message (env : Env) (message_text : string) :
  base_from_last_call (handle_message env message_text).
Proof. unfold handle_message. base_last. Qed.

(** X10: what [download_video] and [download_audio] can do.  Each returns a
    path, or returns None - and then the last thing it did was to print the
    exception -, or lets an exception escape.  What escapes is never an
    Exception: it is what the status message of the fetch or the collaborator
    raised without being one - a cancelled await, an interrupt - and that
    call is then the last thing the fetch did.  In every case no file is
    handed to the transport. *)
Theorem fetch_escapes
    (env : Env) (url : string) (resolution chat_id : Z) (w : World) :
  (exists r w' tr,
     download_video env url resolution chat_id w = (r, w')
     /\ extends w w' tr /\ no_file_sent tr
     /\ match r with
        | inr (Some _) => True
        | inr None =>
            exists e, last (trace w') = Some (Ok (Print ("Download error: " +:+ e)))
        | inl (Exception _) => False
        | inl (BaseException e) =>
            exists c,
              last (trace w') = Some (Failed c (BaseException e))
              /\ (c = SendMessage chat_id (video_header resolution)
                  \/ c = ExtractInfo (video_download_opts resolution) url true)
        end)
  /\ (exists r w' tr,
        download_audio env url chat_id w = (r, w')
        /\ extends w w' tr /\ no_file_sent tr
        /\ match r with
           | inr (Some _) => True
           | inr None =>
               exists e,
                 last (trace w') = Some (Ok (Print ("Audio download error: " +:+ e)))
           | inl (Exception _) => False
           | inl (BaseException e) =>
               exists c,
                 last (trace w') = Some (Failed c (BaseException e))
                 /\ (c = SendMessage chat_id audio_header
                     \/ c = ExtractInfo audio_download_opts url true)
           end).
Proof.
  split.
  - unfold download_video, try_except, bind, call, extract_and_prepare, print, ret.
    change ("⬇️ Downloading " +:+ PyStr.of_int resolution +:+ "p video...")
      with (video_header resolution).
    destruct (bot_api env w _) as [[e|e]|].
    { eexists _, _, _. split_and!; [done|apply extends_log, extends_log, extends_refl| |].
      - by repeat apply no_file_sent_snoc; try constructor.
      - exists e. apply last_snoc. }
    { eexists _, _, _. split_and!; [done|apply extends_log, extends_refl| |].
      - by repeat apply no_file_sent_snoc; try constructor.
      - eexists. split; [apply last_snoc|by left]. }
    destruct (ydl_download env _ _ _) as [[[e|e]|reported] fs].
    { eexists _, _, _.
      split_and!; [done|apply extends_log, extends_snoc, extends_log, extends_refl| |].
      - by repeat apply no_file_sent_snoc; try constructor.
      - exists e. apply last_snoc. }
    { eexists _, _, _.
      split_and!; [done|apply extends_snoc, extends_log, extends_refl| |].
      - by repeat apply no_file_sent_snoc; try constructor.
      - eexists. split; [apply last_snoc|by right]. }
    destruct (PyStr.endswith reported ".mp4"); cbn [negb].
    { eexists _, _, _. split_and!; [done|apply extends_snoc, extends_log, extends_refl| |done].
      by repeat apply no_file_sent_snoc; try constructor. }
    unfold os_rename. cbn [files].
    destruct (decide (reported ∈ fs)).
    + eexists _, _, _.
      split_and!; [done|apply extends_snoc, extends_snoc, extends_log, extends_refl| |done].
      by repeat apply no_file_sent_snoc; try constructor.
    + eexists _, _, _.
      split_and!; [done|apply extends_log, extends_log, extends_snoc, extends_log, extends_refl| |].
      * by repeat apply no_file_sent_snoc; try constructor.
      * eexists. apply last_snoc.
  - unfold download_audio, try_except, bind, call, extract_and_prepare, print, ret.
    change "⬇️ Downloading audio..." with audio_header.
    destruct (bot_api env w _) as [[e|e]|].
    { eexists _, _, _. split_and!; [done|apply extends_log, extends_log, extends_refl| |].
      - by repeat apply no_file_sent_snoc; try constructor.
      - exists e. apply last_snoc. }
    { eexists _, _, _. split_and!; [done|apply extends_log, extends_refl| |].
      - by repeat apply no_file_sent_snoc; try constructor.
      - eexists. split; [apply last_snoc|by left]. }
    destruct (ydl_download env _ _ _) as [[[e|e]|reported] fs].
    { eexists _, _, _.
      split_and!; [done|apply extends_log, extends_snoc, extends_log, extends_refl| |].
      - by repeat apply no_file_sent_snoc; try constructor.
      - exists e. apply last_snoc. }
    { eexists _, _, _.
      split_and!; [done|apply extends_snoc, extends_log, extends_refl| |].
      - by repeat apply no_file_sent_snoc; try constructor.
      - eexists. split; [apply last_snoc|by right]. }
    eexists _, _, _. split_and!; [done|apply extends_snoc, extends_log, extends_refl| |done].
    by repeat apply no_file_sent_snoc; try constructor.
Qed.

(** X11: what leaves [button_callback] was raised by the last call the
    handler made, and that is one of three.  The answer to the callback query
    raised.  Or the report of an error - the edit of the status message to
    "Error: ..." - raised itself.  Or a call raised what is no Exception, a
    cancelled await for one: none of the handlers catches that. *)
Theorem button_callback_escapes
    (env : Env) (data : string) (chat_id : Z) (w w' : World) (r : Raised) :
  button_callback env data chat_id w = (inl r, w') ->
  exists c,
    last (trace w') = Some (Failed c r)
    /\ (c = Answer
        \/ (exists e0, c = EditMessageText ("❌ Error: " +:+ e0))
        \/ exists e, r = BaseException e).
Proof.
  unfold button_callback. unfold bind at 1.
  destruct (call env Answer w) as [[r0|[]] w1] eqn:Hanswer.
  - intros [= <- <-]. exists Answer. split; [by apply call_inl_inv in Hanswer|by left].
  - destruct (PyStr.startswith data "dl_"); [|by intros [=]].
    intros [(a & _ & [=])|[(e & Hbody & [= ->])|(e0 & w0 & _ & Hreport)]]%try_except_inv.
    + assert (base_from_last_call
                (selection <- lift (decode_callback data);;
                 let '(quality, url) := selection in
                 call env (EditMessageText "⏳ Starting download... Please wait.");;
                 filename <-
                   (if decide (quality = "audio") then download_audio env url chat_id
                    else
                      resolution <- lift (py_int env quality);;
                      download_video env url resolution chat_id);;
                 if not_filename filename then
                   call env (EditMessageText "❌ Download failed. Please try again.")
                 else
                   send_file env quality (default EmptyString filename) chat_id)) as Hlast.
      { apply base_last_bind; [apply base_last_lift|]. intros [quality url].
        apply base_last_bind; [apply base_last_call|]. intros _.
        apply base_last_bind.
        - case_decide; [apply base_last_download_audio|].
          apply base_last_bind; [apply base_last_lift|]. intros resolution.
          apply base_last_download_video.
        - intros filename. destruct (not_filename filename);
            [apply base_last_call|apply base_last_send_file]. }
      destruct (Hlast _ _ _ Hbody) as [c Hc]. exists c. split; [done|].
      right. right. by exists e.
    + eexists. split; [by apply call_inl_inv in Hreport|]. right. left. by exists e0.
Qed.

Lemma button_callback_escapes_witness :
  exists c,
    last (trace (log (Failed Answer (Exception "Query is too old")) world0))
    = Some (Failed c (Exception "Query is too old"))
    /\ (c = Answer
        \/ (exists e0, c = EditMessageText ("❌ Error: " +:+ e0))
        \/ exists e, Exception "Query is too old" = BaseException e).
Proof.
  apply (button_callback_escapes env_answer_fails "dl_audio_https://youtu.be/abc" 7 world0).
  reflexivity.
Defined.

(** A send that is cancelled: the exception leaves the handler, the user is
    told nothing, and the file stays on disk. *)
Example cancelled_send_leaves_file :
  let '(r, w') :=
    button_callback env_send_cancelled "dl_1080_https://youtu.be/abc" 7 world0 in
  r = inl (BaseException "")
  /\ "temp_downloads/T.mp4" ∈ files w'
  /\ trace w'
     = [Ok Answer;
        Ok (EditMessageText "⏳ Starting download... Please wait.");
        Ok (SendMessage 7 "⬇️ Downloading 1080p video...");
        Ok (ExtractInfo (video_download_opts 1080) "https://youtu.be/abc" true);
        Ok (Rename "temp_downloads/T.webm" "temp_downloads/T.mp4");
        Ok (Open "temp_downloads/T.mp4");
        Failed (SendVideo 7 "temp_downloads/T.mp4" "Here's your video in 1080p quality!")
               (BaseException "")].
Proof.
  vm_compute. split_and!; reflexivity.
Qed.

(** ** A selection that is delivered *)

Lemma endswith_nonempty (s p : string) :
  PyStr.endswith s p = true -> p <> "" -> PyStr.is_empty s = false.
Proof. destruct s; [|done]. destruct p; [done|]. simpl. done. Qed.

Lemma append_nonempty (a b : string) : b <> "" -> PyStr.is_empty (a +:+ b) = false.
Proof. destruct a; [|done]. by destruct b. Qed.

(** X12: a video selection that goes through.  With a transport that accepts
    every call, a quality that [int] reads as [h] and a collaborator that
    returns a file it has written, the handler asks the collaborator for the
    format [b[height<=h]], renames the file when its name does not end in
    ".mp4", sends it with the quality in the caption, removes it and deletes
    the status message; neither the file nor its original name stays on
    disk. *)
Theorem button_callback_video_delivered
    (env : Env) (data quality url : string) (h chat_id : Z) (w : World)
    (reported : string) (fs : gset string) :
  transport_accepts_all env ->
  PyStr.startswith data "dl_" = true ->
  decode_callback data = inr (quality, url) ->
  quality <> "audio" ->
  py_int env quality = inr h ->
  ydl_download env
    (log (Ok (SendMessage chat_id ("⬇️ Downloading " +:+ PyStr.of_int h +:+ "p video...")))
       (log (Ok (EditMessageText "⏳ Starting download... Please wait."))
          (log (Ok Answer) w)))
    (video_download_opts h) url
  = (inr reported, fs) ->
  reported ∈ fs ->
  let renamed := negb (PyStr.endswith reported ".mp4") in
  let path := if renamed then (OsPath.splitext reported).1 +:+ ".mp4" else reported in
  let '(r, w') := button_callback env data chat_id w in
  r = inr tt
  /\ (path ∉ files w')
  /\ (reported ∉ files w')
  /\ trace w'
     = trace w
       ++ [Ok Answer;
           Ok (EditMessageText "⏳ Starting download... Please wait.");
           Ok (SendMessage chat_id
                 ("⬇️ Downloading " +:+ PyStr.of_int h +:+ "p video..."));
           Ok (ExtractInfo (video_download_opts h) url true)]
       ++ (if renamed then [Ok (Rename reported path)] else [])
       ++ [Ok (Open path);
           Ok (SendVideo chat_id path
                 ("Here's your video in " +:+ quality +:+ "p quality!"));
           Ok (Remove path);
           Ok DeleteMessage].
Proof.
  intros Hacc Hstart Hdec Hq Hint Hdl Hin renamed path.
  unfold button_callback, try_except, bind, call, lift.
  rewrite Hacc, Hstart, Hdec, Hacc. rewrite decide_False by done.
  rewrite Hint. unfold download_video, try_except, bind, call, extract_and_prepare.
  rewrite Hacc, Hdl. subst path renamed.
  destruct (PyStr.endswith reported ".mp4") eqn:Hext; cbn [negb].
  - unfold ret. cbn [not_filename default].
    rewrite (endswith_nonempty reported ".mp4") by done.
    unfold send_file, try_except, bind, py_open, call. cbn [files].
    rewrite decide_False by done. rewrite decide_True by done.
    rewrite Hacc. unfold os_remove. cbn [files log]. rewrite decide_True by done.
    rewrite Hacc. cbn [files trace log].
    split_and!; [done| | |by rewrite <-!app_assoc].
    + by apply not_elem_of_difference; right; apply elem_of_singleton.
    + by apply not_elem_of_difference; right; apply elem_of_singleton.
  - unfold os_rename, ret. cbn [files]. rewrite decide_True by done.
    cbn [not_filename default].
    rewrite (append_nonempty _ ".mp4") by done.
    set (path := (OsPath.splitext reported).1 +:+ ".mp4").
    assert (path ∈ fs ∖ {[reported]} ∪ {[path]}) as Hpath
      by (apply elem_of_union; right; by apply elem_of_singleton).
    unfold send_file, try_except, bind, py_open, call. cbn [files].
    rewrite decide_False by done. rewrite decide_True by done.
    rewrite Hacc. unfold os_remove. cbn [files log]. rewrite decide_True by done.
    rewrite Hacc. cbn [files trace log].
    split_and!; [done| | |by rewrite <-!app_assoc].
    + by apply not_elem_of_difference; right; apply elem_of_singleton.
    + intros [[_ Hne]%elem_of_difference|Heq%elem_of_singleton]%elem_of_difference%proj1%elem_of_union.
      * by apply Hne, elem_of_singleton.
      * assert (PyStr.endswith reported ".mp4" = true) as Habs
          by (rewrite Heq; apply endswith_app).
        congruence.
Qed.

Lemma button_callback_video_delivered_witness :
  let '(r, w') := button_callback env_ok "dl_1080_https://youtu.be/abc" 7 world0 in
  r = inr tt
  /\ ("temp_downloads/T.mp4" ∉ files w')
  /\ ("temp_downloads/T.webm" ∉ files w')
  /\ trace w'
     = [Ok Answer;
        Ok (EditMessageText "⏳ Starting download... Please wait.");
        Ok (SendMessage 7 "⬇️ Downloading 1080p video...");
        Ok (ExtractInfo (video_download_opts 1080) "https://youtu.be/abc" true);
        Ok (Rename "temp_downloads/T.webm" "temp_downloads/T.mp4");
        Ok (Open "temp_downloads/T.mp4");
        Ok (SendVideo 7 "temp_downloads/T.mp4" "Here's your video in 1080p quality!");
        Ok (Remove "temp_downloads/T.mp4");
        Ok DeleteMessage].
Proof.
  apply (button_callback_video_delivered
           env_ok "dl_1080_https://youtu.be/abc" "1080" "https://youtu.be/abc" 1080 7
           world0 "temp_downloads/T.webm" (∅ ∪ {[ "temp_downloads/T.webm" ]})).
  - intros w c. reflexivity.
  - reflexivity.
  - reflexivity.
  - discriminate.
  - reflexivity.
  - reflexivity.
  - apply elem_of_union. right. by apply elem_of_singleton.
Defined.

(** X13: an audio selection, with a transport that accepts every call and a
    collaborator that returns.  The handler asks for "bestaudio/best" with
    the MP3 post-processor and takes the reported name with the extension
    ".mp3" as the file, without looking whether it is there.  When it is, the
    file is sent, removed, and the status message deleted.  When it is not,
    opening it fails: nothing is sent, nothing is removed, and the user is
    shown the error. *)
Theorem button_callback_audio_selection
    (env : Env) (data url : string) (chat_id : Z) (w : World)
    (reported : string) (fs : gset string) :
  transport_accepts_all env ->
  PyStr.startswith data "dl_" = true ->
  decode_callback data = inr ("audio", url) ->
  ydl_download env
    (log (Ok (SendMessage chat_id "⬇️ Downloading audio..."))
       (log (Ok (EditMessageText "⏳ Starting download... Please wait."))
          (log (Ok Answer) w)))
    audio_download_opts url
  = (inr reported, fs) ->
  let path := (OsPath.splitext reported).1 +:+ ".mp3" in
  let '(r, w') := button_callback env data chat_id w in
  r = inr tt
  /\ files w' = fs ∖ {[ path ]}
  /\ trace w'
     = trace w
       ++ [Ok Answer;
           Ok (EditMessageText "⏳ Starting download... Please wait.");
           Ok (SendMessage chat_id "⬇️ Downloading audio...");
           Ok (ExtractInfo audio_download_opts url true)]
       ++ (if decide (path ∈ fs) then
             [Ok (Open path);
              Ok (SendAudio chat_id path "Here's your audio file!");
              Ok (Remove path);
              Ok DeleteMessage]
           else
             [Failed (Open path) (Exception (no_such_file (repr path)));
              send_error_report (no_such_file (repr path))]).
Proof.
  intros Hacc Hstart Hdec Hdl path.
  unfold button_callback, try_except, bind, call, lift.
  rewrite Hacc, Hstart, Hdec, Hacc. rewrite decide_True by done.
  unfold download_audio, try_except, bind, call, extract_and_prepare.
  rewrite Hacc, Hdl. unfold ret. cbn [not_filename].
  rewrite (append_nonempty _ ".mp3") by done. fold path.
  unfold send_file, try_except, bind, py_open, call.
  change (default EmptyString (Some path)) with path. cbn [files].
  rewrite decide_True by done.
  destruct (decide (path ∈ fs)) as [Hin|Hnin].
  - rewrite decide_True by done.
    rewrite Hacc. unfold os_remove. cbn [files log]. rewrite decide_True by done.
    rewrite Hacc. cbn [files trace log].
    split_and!; [done..|by rewrite <-!app_assoc].
  - rewrite decide_False by done.
    rewrite Hacc. unfold os_path_exists. cbn [files log].
    rewrite bool_decide_eq_false_2 by done. unfold ret. cbn [files trace log].
    split_and!; [done| |by rewrite <-!app_assoc].
    by rewrite difference_disjoint_L by (by apply disjoint_singleton_r).
Qed.

Lemma button_callback_audio_selection_witness :
  let path := (OsPath.splitext "temp_downloads/T.webm").1 +:+ ".mp3" in
  let '(r, w') := button_callback env_no_mp3 "dl_audio_https://youtu.be/abc" 7 world0 in
  r = inr tt
  /\ files w' = (∅ ∪ {[ "temp_downloads/T.webm" ]}) ∖ {[ path ]}
  /\ trace w'
     = trace world0
       ++ [Ok Answer;
           Ok (EditMessageText "⏳ Starting download... Please wait.");
           Ok (SendMessage 7 "⬇️ Downloading audio...");
           Ok (ExtractInfo audio_download_opts "https://youtu.be/abc" true)]
       ++ (if decide (path ∈ (∅ ∪ {[ "temp_downloads/T.webm" ]} : gset string)) then
             [Ok (Open path);
              Ok (SendAudio 7 path "Here's your audio file!");
              Ok (Remove path);
              Ok DeleteMessage]
           else
             [Failed (Open path) (Exception (no_such_file (repr path)));
              send_error_report (no_such_file (repr path))]).
Proof.
  exact (button_callback_audio_selection
           env_no_mp3 "dl_audio_https://youtu.be/abc" "https://youtu.be/abc" 7
           world0 "temp_downloads/T.webm" (∅ ∪ {[ "temp_downloads/T.webm" ]})
           (fun _ _ => eq_refl) eq_refl eq_refl eq_refl).
Defined.

(** The file the post-processor did not make: the WebM file stays on disk
    and the user is shown the error of [open]. *)
Example audio_file_missing :
  let '(r, w') := button_callback env_no_mp3 "dl_audio_https://youtu.be/abc" 7 world0 in
  "temp_downloads/T.webm" ∈ files w'
  /\ last (trace w')
     = Some (Ok (EditMessageText
                   "❌ Error sending file: [Errno 2] No such file or directory: 'temp_downloads/T.mp3'")).
Proof. vm_compute. split; reflexivity. Qed.

(** ** More on handle_message *)

(** X14: [handle_message] never touches the disk and never starts a
    download: all it does is reply, ask the collaborator for the metadata
    (without downloading) and print.  What leaves it was raised by the last
    call it made, and that is one of three: the reply to a message that names
    no host raised; the reply "Error: ..." that reports an exception raised
    itself; or a call - a reply, the request for the metadata - raised what
    is no Exception, which no handler catches. *)
Theorem handle_message_effects (env : Env) (message_text : string) (w : World) :
  let '(r, w') := handle_message env message_text w in
  files w' = files w
  /\ (exists tr,
        extends w w' tr
        /\ Forall (fun x => match entry_call x with
                            | ReplyText _ _ | Print _ => True
                            | ExtractInfo _ _ download => download = false
                            | _ => False
                            end) tr)
  /\ (forall r0,
        r = inl r0 ->
        exists c,
          last (trace w') = Some (Failed c r0)
          /\ (c = ReplyText "Please send a valid YouTube URL." None
              \/ (exists e0, c = ReplyText ("❌ Error: " +:+ e0) None)
              \/ exists e, r0 = BaseException e)).
Proof.
  unfold handle_message, try_except, bind, call, get_video_info, lift.
  destruct (negb _) eqn:Hhost.
  all: repeat (match goal with
               | |- context [bot_api ?e ?w0 ?c] =>
                   destruct (bot_api e w0 c) as [[?|?]|] eqn:?
               | |- context [ydl_info ?e ?w0 ?u] =>
                   destruct (ydl_info e w0 u) as [[?|?]|[?|]] eqn:?
               | |- context [info_text ?i] => destruct (info_text i) eqn:?
               | |- context [get_available_formats ?i] =>
                   destruct (get_available_formats i) eqn:?
               | |- context [bool_decide ?P] => destruct (bool_decide P) eqn:?
               end; cbn beta iota).
  all: split; [reflexivity|].
  all: split;
    [eexists; split;
     [unfold extends; cbn [trace log snd]; rewrite <-?app_assoc; reflexivity|];
     repeat match goal with
            | |- Forall _ (_ ++ _) => apply Forall_app; split
            | |- Forall _ (_ :: _) => constructor
            | |- Forall _ [] => constructor
            end; cbn [entry_call]; done|].
  all: intros r0 [=]; subst; cbn [trace log].
  all: eexists; (split; [apply last_snoc|]).
  all: first [by left | right; left; by eexists | right; right; by eexists].
Qed.

Lemma sorted_resolutions_nil (l : list Format) :
  sorted_resolutions l = [] <-> filter (fun g => is_video g = true) l = [].
Proof.
  split; intros Hnil.
  - destruct (filter _ l) as [|g V] eqn:HV; [done|]. exfalso.
    assert (res_of g ∈ (sorted_resolutions l).*1) as Hg
      by (apply sorted_resolutions_keys; rewrite HV; apply list_elem_of_here).
    rewrite Hnil in Hg. by apply elem_of_nil in Hg.
  - destruct (sorted_resolutions l) as [|[res f] out] eqn:Hout; [done|]. exfalso.
    assert (res ∈ (sorted_resolutions l).*1) as Hres
      by (rewrite Hout; apply list_elem_of_here).
    apply sorted_resolutions_keys in Hres. rewrite Hnil in Hres.
    by apply elem_of_nil in Hres.
Qed.

Lemma get_available_formats_not_null (info : Info) :
  formats info <> Null ->
  get_available_formats info = inr (sorted_resolutions (candidates info)).
Proof. unfold get_available_formats. by destruct (formats info). Qed.

Lemma get_available_formats_null (info : Info) :
  formats info = Null ->
  get_available_formats info = inl "'NoneType' object is not iterable".
Proof. unfold get_available_formats. by intros ->. Qed.

(** X15: what the user gets for a message that names a host, with a
    transport that accepts every call and metadata - None or a dictionary
    that is not empty - whose file sizes are below 2^53 bytes.  When
    the request for the metadata raises what is no Exception, that leaves the
    handler and the user gets nothing more.  Otherwise the handler returns,
    leaves the disk alone, and its last call is one reply: "Could not get
    video information" when the collaborator raised an Exception or
    returned None; "Error: " and the text of the exception when the info
    text cannot be made (a missing title, uploader or duration) or when the
    'formats' key holds None; "No downloadable formats found." when no
    candidate has a video codec; and the info text with the quality menu
    otherwise. *)
Theorem handle_message_outcome (env : Env) (message_text : string) (w : World) :
  transport_accepts_all env ->
  let url := py_strip env message_text in
  PyStr.contains url "youtube.com" || PyStr.contains url "youtu.be" = true ->
  let w1 := log (Ok (ReplyText "🔍 Getting video information..." None)) w in
  match ydl_info env w1 url with
  | inr (Some info) => sizes_exact info = true
  | _ => True
  end ->
  let '(r, w') := handle_message env message_text w in
  files w' = files w
  /\ match ydl_info env w1 url with
     | inl (BaseException e) =>
         r = inl (BaseException e)
         /\ last (trace w')
            = Some (Failed (ExtractInfo (mkYdlOpts true false None None None []) url false)
                           (BaseException e))
     | inl (Exception _) | inr None =>
         r = inr tt
         /\ last (trace w')
            = Some (Ok (ReplyText
                          "❌ Could not get video information. Please check the URL."
                          None))
     | inr (Some info) =>
         r = inr tt
         /\ exists shown markup,
              last (trace w') = Some (Ok (ReplyText shown markup))
              /\ match info_text info with
                 | inl e => shown = ("❌ Error: " +:+ e) /\ markup = None
                 | inr described =>
                     if decide (formats info = Null) then
                       shown = "❌ Error: 'NoneType' object is not iterable"
                       /\ markup = None
                     else if decide (video_candidates info = []) then
                       shown = "❌ No downloadable formats found." /\ markup = None
                     else
                       shown = described
                       /\ exists reduced,
                            get_available_formats info = inr reduced
                            /\ reduced <> []
                            /\ markup = Some (quality_buttons reduced url)
                 end
     end.
Proof.
  intros Hacc url Hhost w1 _.
  unfold handle_message. fold url. rewrite Hhost. cbn [negb].
  unfold try_except, bind, call, get_video_info, lift.
  rewrite Hacc. fold w1.
  destruct (ydl_info env w1 url) as [[e|e]|[info|]] eqn:Hinfo.
  - rewrite Hacc. split_and!; [done..|]. apply last_snoc.
  - split_and!; [done..|]. apply last_snoc.
  - destruct (info_text info) as [e|described] eqn:Htext.
    { rewrite Hacc. split_and!; [done..|]. eexists _, _. split; [apply last_snoc|done]. }
    destruct (decide (formats info = Null)) as [Hnull|Hnull].
    { rewrite (get_available_formats_null info Hnull), Hacc. split_and!; [done..|].
      eexists _, _. split; [apply last_snoc|done]. }
    rewrite (get_available_formats_not_null info Hnull).
    destruct (decide (video_candidates info = [])) as [Hnone|Hsome].
    + apply sorted_resolutions_nil in Hnone as Hnil. rewrite Hnil.
      rewrite bool_decide_eq_true_2 by done. rewrite Hacc.
      split_and!; [done..|]. eexists _, _. split; [apply last_snoc|done].
    + assert (sorted_resolutions (candidates info) <> []) as Hne
        by (by intros ?%sorted_resolutions_nil).
      rewrite bool_decide_eq_false_2 by done. rewrite Hacc.
      split_and!; [done..|]. eexists _, _. split; [apply last_snoc|].
      split; [done|]. by eexists.
  - rewrite Hacc. split_and!; [done..|]. apply last_snoc.
Qed.

Lemma handle_message_outcome_witness :
  let url := py_strip env_ok "https://youtu.be/abc" in
  let w1 := log (Ok (ReplyText "🔍 Getting video information..." None)) world0 in
  let '(r, w') := handle_message env_ok "https://youtu.be/abc" world0 in
  files w' = files world0
  /\ match ydl_info env_ok w1 url with
     | inl (BaseException e) =>
         r = inl (BaseException e)
         /\ last (trace w')
            = Some (Failed (ExtractInfo (mkYdlOpts true false None None None []) url false)
                           (BaseException e))
     | inl (Exception _) | inr None =>
         r = inr tt
         /\ last (trace w')
            = Some (Ok (ReplyText
                          "❌ Could not get video information. Please check the URL."
                          None))
     | inr (Some info) =>
         r = inr tt
         /\ exists shown markup,
              last (trace w') = Some (Ok (ReplyText shown markup))
              /\ match info_text info with
                 | inl e => shown = ("❌ Error: " +:+ e) /\ markup = None
                 | inr described =>
                     if decide (formats info = Null) then
                       shown = "❌ Error: 'NoneType' object is not iterable"
                       /\ markup = None
                     else if decide (video_candidates info = []) then
                       shown = "❌ No downloadable formats found." /\ markup = None
                     else
                       shown = described
                       /\ exists reduced,
                            get_available_formats info = inr reduced
                            /\ reduced <> []
                            /\ markup = Some (quality_buttons reduced url)
                 end
     end.
Proof.
  exact (handle_message_outcome env_ok "https://youtu.be/abc" world0
           (fun _ _ => eq_refl) eq_refl eq_refl).
Defined.

(** The request for the metadata is interrupted: the handler is left at once,
    after its first reply. *)
Example handle_message_interrupted :
  let env :=
    mkEnv (fun _ _ => inl (BaseException "")) (ydl_download env_ok) (bot_api env_ok)
          (py_int env_ok) (py_strip env_ok) in
  handle_message env "https://youtu.be/abc" world0
  = (inl (BaseException ""),
     mkWorld ∅
       [Ok (ReplyText "🔍 Getting video information..." None);
        Failed (ExtractInfo (mkYdlOpts true false None None None [])
                            "https://youtu.be/abc" false)
               (BaseException "")]).
Proof. reflexivity. Qed.

Example handle_message_only_audio :
  let env :=
    mkEnv (fun _ _ => inr (Some (mkInfo (Val "T") (Val "U") (Val 125) Absent Absent
                                        (Val [faudio]))))
          (ydl_download env_ok) (bot_api env_ok) (py_int env_ok) (py_strip env_ok) in
  last (trace (handle_message env "https://youtu.be/abc" world0).2)
  = Some (Ok (ReplyText "❌ No downloadable formats found." None)).
Proof. reflexivity. Qed.

Example handle_message_missing_title :
  let env :=
    mkEnv (fun _ _ => inr (Some (mkInfo Absent (Val "U") (Val 125) Absent Absent
                                        (Val [f720]))))
          (ydl_download env_ok) (bot_api env_ok) (py_int env_ok) (py_strip env_ok) in
  last (trace (handle_message env "https://youtu.be/abc" world0).2)
  = Some (Ok (ReplyText "❌ Error: 'title'" None)).
Proof. reflexivity. Qed.

(** ** More on file names *)

(** [rfind] finds the last occurrence: nothing after it is the character. *)
Lemma rfind_from_spec (c : ascii) (s : string) (i found : Z) :
  (PyStr.mem c s = false /\ OsPath.rfind_from c s i found = found)
  \/ exists a b,
       s = a +:+ String c b /\ PyStr.mem c b = false
       /\ OsPath.rfind_from c s i found = i + Z.of_nat (String.length a).
Proof.
  revert i found. induction s as [|x s IH]; intros i found; [by left|].
  cbn [OsPath.rfind_from PyStr.mem].
  destruct (IH (i + 1) (if Ascii.eqb x c then i else found))
    as [[Hmem Hr]|(a & b & -> & Hb & Hr)].
  - destruct (Ascii.eqb_spec x c) as [->|Hx].
    + right. exists EmptyString, s. split_and!; [done..|]. rewrite Hr. simpl. lia.
    + left. by rewrite Hmem.
  - right. exists (String x a), b. split_and!; [done..|].
    rewrite Hr. cbn [String.length]. lia.
Qed.

Lemma mem_app (c : ascii) (a b : string) :
  PyStr.mem c (a +:+ b) = PyStr.mem c a || PyStr.mem c b.
Proof.
  induction a as [|x a IH]; [done|].
  rewrite append_cons. cbn [PyStr.mem]. by rewrite IH, orb_assoc.
Qed.

(** Whatever the path, [splitext] cuts it in two: the extension has no
    slash, and it is empty or a dot followed by dot-free text. *)
Lemma splitext_decompose (p : string) :
  exists root ext,
    OsPath.splitext p = (root, ext)
    /\ p = root +:+ ext
    /\ PyStr.mem "/" ext = false
    /\ (ext = "" \/ exists e, ext = String "." e /\ PyStr.mem "." e = false).
Proof.
  unfold OsPath.splitext.
  destruct ((OsPath.rfind "/" p <? OsPath.rfind "." p) && _) eqn:Hcond.
  2:{ exists p, "". split_and!; [done|by rewrite append_empty_r|done|by left]. }
  apply andb_prop in Hcond as [Hlt%Z.ltb_lt _].
  unfold OsPath.rfind in *.
  destruct (rfind_from_spec "." p 0 (-1)) as [[_ Hr]|(a & b & Hp & Hb & Hr)].
  { pose proof (rfind_from_lower "/" p 0 (-1) ltac:(lia) ltac:(lia)). lia. }
  rewrite Hr in *. exists a, (String "." b).
  assert (OsPath.slice p 0 (0 + Z.of_nat (String.length a)) = a) as ->.
  { unfold OsPath.slice. rewrite Hp.
    replace (Z.to_nat (0 + Z.of_nat (String.length a) - 0)) with (String.length a) by lia.
    apply substring_prefix. }
  assert (OsPath.slice p (0 + Z.of_nat (String.length a)) (Z.of_nat (String.length p))
          = String "." b) as ->.
  { unfold OsPath.slice. rewrite Hp at 1 2. rewrite length_append.
    replace (Z.to_nat (0 + Z.of_nat (String.length a))) with (String.length a) by lia.
    replace (Z.to_nat _) with (String.length (String "." b)) by lia.
    apply substring_suffix. }
  split_and!; [done|done| |right; by exists b].
  (* a slash in the extension would be a later slash than the last one *)
  destruct (PyStr.mem "/" (String "." b)) eqn:Hslash; [exfalso|done].
  rewrite Hp, (rfind_from_app "/" a) in Hlt.
  destruct (rfind_from_spec "/" (String "." b)
              (0 + Z.of_nat (String.length a)) (OsPath.rfind_from "/" a 0 (-1)))
    as [[Hno _]|(a' & b' & Heq & _ & Hr')]; [congruence|].
  rewrite Hr' in Hlt.
  destruct a' as [|x a']; [done|]. cbn [String.length] in Hlt. lia.
Qed.

Lemma endswith_inv (s p : string) :
  PyStr.endswith s p = true -> exists a, s = a +:+ p.
Proof.
  induction s as [|c s IH]; cbn [PyStr.endswith].
  - rewrite orb_false_r. intros ->%String.eqb_eq. by exists "".
  - intros [->%String.eqb_eq|[a ->]%IH]%orb_prop; [by exists ""|].
    by exists (String c a).
Qed.

(** X16: the path a fetch returns names a file beside the one the
    collaborator reported: the reported name is [root] and an extension
    without slash, and the path is [root] and ".mp3" (for [download_audio])
    or [root] and ".mp4" (for [download_video], which returns a name that
    ends in ".mp4" already as it is). *)
Theorem fetch_replaces_extension
    (env : Env) (url : string) (resolution chat_id : Z) (w w' : World) (path : string) :
  (download_audio env url chat_id w = (inr (Some path), w') ->
   exists root ext,
     (ydl_download env (log (Ok (SendMessage chat_id "⬇️ Downloading audio...")) w)
        audio_download_opts url).1 = inr (root +:+ ext)
     /\ path = root +:+ ".mp3"
     /\ PyStr.mem "/" ext = false)
  /\ (download_video env url resolution chat_id w = (inr (Some path), w') ->
      exists root ext,
        (ydl_download env
           (log (Ok (SendMessage chat_id
                       ("⬇️ Downloading " +:+ PyStr.of_int resolution +:+ "p video...")))
                w)
           (video_download_opts resolution) url).1 = inr (root +:+ ext)
        /\ path = root +:+ ".mp4"
        /\ PyStr.mem "/" ext = false).
Proof.
  split.
  - unfold download_audio, try_except, bind, call, extract_and_prepare, print, ret.
    destruct (bot_api env w _) as [[e|e]|]; [intros [=]..|].
    destruct (ydl_download env _ _ _) as [[[e|e]|reported] fs] eqn:Hdl; [intros [=]..|].
    intros [= <- <-].
    destruct (splitext_decompose reported) as (root & ext & Hsplit & -> & Hext & _).
    exists root, ext. by rewrite Hsplit.
  - unfold download_video, try_except, bind, call, extract_and_prepare, print, ret.
    destruct (bot_api env w _) as [[e|e]|]; [intros [=]..|].
    destruct (ydl_download env _ _ _) as [[[e|e]|reported] fs] eqn:Hdl; [intros [=]..|].
    destruct (PyStr.endswith reported ".mp4") eqn:Hmp4; cbn [negb].
    + intros [= <- <-].
      apply endswith_inv in Hmp4 as [root ->]. by exists root, ".mp4".
    + unfold os_rename. cbn [files].
      destruct (decide (reported ∈ fs)); [|intros [=]].
      intros [= <- <-].
      destruct (splitext_decompose reported) as (root & ext & Hsplit & -> & Hext & _).
      exists root, ext. by rewrite Hsplit.
Qed.

Lemma fetch_replaces_extension_witness :
  exists root ext,
    (ydl_download env_ok (log (Ok (SendMessage 7 "⬇️ Downloading audio...")) world0)
       audio_download_opts "https://youtu.be/abc").1 = inr (root +:+ ext)
    /\ "temp_downloads/T.mp3" = root +:+ ".mp3"
    /\ PyStr.mem "/" ext = false.
Proof.
  apply (proj1 (fetch_replaces_extension env_ok "https://youtu.be/abc" 0 7 world0
                  (download_audio env_ok "https://youtu.be/abc" 7 world0).2
                  "temp_downloads/T.mp3")).
  reflexivity.
Defined.

Example splitext_no_extension :
  OsPath.splitext "temp_downloads/T" = ("temp_downloads/T", "").
Proof. reflexivity. Qed.

Example splitext_dotted_directory :
  OsPath.splitext "a.b/T" = ("a.b/T", "").
Proof. reflexivity. Qed.

(** ** YouTubeDownloader.download_video and the progress hooks *)

Lemma os_path_join_template (a : string) :
  exists dir,
    os_path_join a "%(title)s.%(ext)s" = dir +:+ "%(title)s.%(ext)s"
    /\ (dir = "" \/ PyStr.endswith dir "/" = true)
    /\ PyStr.startswith dir a = true.
Proof.
  unfold os_path_join. change (PyStr.startswith "%(title)s.%(ext)s" "/") with false.
  cbv iota.
  destruct (PyStr.is_empty a || PyStr.endswith a "/") eqn:Hcase.
  - exists a. split_and!; [done| |].
    + apply orb_prop in Hcase as [Hempty|Hslash]; [left; by destruct a|by right].
    + rewrite <-(append_empty_r a) at 1. apply startswith_app.
  - exists (a +:+ "/"). split_and!.
    + by rewrite append_assoc.
    + right. apply endswith_app.
    + apply startswith_app.
Qed.

(** X17: [YouTubeDownloader.download_video] calls nothing but the
    collaborator and [print].  It returns the name the collaborator reported
    as it is - no ".mp4" is forced on it; when the collaborator raised an
    Exception it prints "Download failed: ..." and returns None; and what the
    collaborator raised without being an Exception - an interrupt, an exit -
    leaves the function uncaught.  The output template is the output path, a
    slash unless the path is empty or ends in one, and the file template; for
    the path "temp_downloads" the format filter and the output template are
    those [TelegramBot.download_video] passes. *)
Theorem cli_download_video
    (env : Env) (url : string) (resolution : Z) (output_path : string) (w : World) :
  let opts := YouTubeDownloader.download_opts resolution output_path in
  (match ydl_download env w opts url with
   | (inr reported, fs) =>
       YouTubeDownloader.download_video env url resolution output_path w
       = (inr (Some reported),
          mkWorld fs (trace w ++ [Ok (ExtractInfo opts url true)]))
   | (inl (Exception e), fs) =>
       YouTubeDownloader.download_video env url resolution output_path w
       = (inr None,
          mkWorld fs (trace w ++ [Failed (ExtractInfo opts url true) (Exception e);
                                  Ok (Print ("Download failed: " +:+ e))]))
   | (inl (BaseException e), fs) =>
       YouTubeDownloader.download_video env url resolution output_path w
       = (inl (BaseException e),
          mkWorld fs (trace w ++ [Failed (ExtractInfo opts url true) (BaseException e)]))
   end)
  /\ (exists dir,
        outtmpl opts = Some (dir +:+ "%(title)s.%(ext)s")
        /\ (dir = "" \/ PyStr.endswith dir "/" = true)
        /\ PyStr.startswith dir output_path = true)
  /\ format (YouTubeDownloader.download_opts resolution "temp_downloads")
     = format (video_download_opts resolution)
  /\ outtmpl (YouTubeDownloader.download_opts resolution "temp_downloads")
     = outtmpl (video_download_opts resolution).
Proof.
  intros opts. split_and!; [| |reflexivity..].
  - unfold YouTubeDownloader.download_video, try_except, bind, extract_and_prepare,
      print, ret. fold opts.
    destruct (ydl_download env w opts url) as [[[e|e]|reported] fs]; [|done..].
    unfold log. simpl. by rewrite <-app_assoc.
  - destruct (os_path_join_template output_path) as (dir & Hjoin & Hdir & Hpre).
    exists dir. split_and!; [|done..]. cbn [opts YouTubeDownloader.download_opts outtmpl].
    by rewrite Hjoin.
Qed.

Example cli_download_default_path :
  outtmpl (YouTubeDownloader.download_opts 720 ".") = Some "./%(title)s.%(ext)s".
Proof. reflexivity. Qed.

Example cli_download_keeps_webm :
  (YouTubeDownloader.download_video env_ok "https://youtu.be/abc" 720 "." world0).1
  = inr (Some "temp_downloads/T.webm").
Proof. reflexivity. Qed.

(** X18: the progress hooks.  Each raises exactly when the event has no
    'status' key - and the console hook also when a 'finished' event has no
    'filename' key.  The hooks of the bot schedule an edit of the status
    message for 'downloading' events only, and its text starts with the
    header, so the message keeps the line it was sent with; the console hook
    writes nothing for a status other than 'downloading' and 'finished', and
    for 'downloading' a text that starts with a carriage return. *)
Theorem progress_hooks (header : string) (d : Progress) :
  (forall e, status_edit header d = inl e <-> status d = Absent /\ e = repr "status")
  /\ (forall shown,
        status_edit header d = inr (Some shown) <->
        status d = Val "downloading"
        /\ shown = header +:+ PyStr.nl
                   +:+ "Progress: " +:+ get_or_unknown (percent_str d) +:+ PyStr.nl
                   +:+ "Speed: " +:+ get_or_unknown (speed_str d) +:+ PyStr.nl
                   +:+ "ETA: " +:+ get_or_unknown (eta_str d))
  /\ (forall shown,
        status_edit header d = inr (Some shown) -> PyStr.startswith shown header = true)
  /\ (forall e,
        YouTubeDownloader.progress_hook d = inl e <->
        status d = Absent /\ e = repr "status"
        \/ status d = Val "finished" /\ filename d = Absent /\ e = repr "filename")
  /\ (forall written,
        YouTubeDownloader.progress_hook d = inr written ->
        (status d = Val "downloading" -> PyStr.startswith written cr = true)
        /\ (status d <> Val "downloading" -> status d <> Val "finished" ->
            written = "")).
Proof.
  unfold status_edit, YouTubeDownloader.progress_hook.
  destruct (status d) as [| |s] eqn:Hstatus.
  - split_and!; try done.
    + intros e. split; [by intros [= <-]|by intros [_ ->]].
    + intros shown. split; [done|by intros [? _]].
    + intros e. split; [intros [= <-]; by left|].
      by intros [[_ ->]|(? & _)].
  - split_and!; try done.
    + intros e. split; [done|by intros [? _]].
    + intros shown. split; [done|by intros [? _]].
    + intros e. split; [done|]. by intros [[? _]|(? & _)].
    + intros written [= <-]. done.
  - destruct (decide (s = "downloading")) as [->|Hdl].
    + split_and!.
      * intros e. split; [done|by intros [? _]].
      * intros shown. split; [by intros [= <-]|by intros [_ ->]].
      * intros shown [= <-]. apply startswith_app.
      * intros e. split; [done|]. by intros [[? _]|(? & _)].
      * intros written [= <-]. split; [intros _; apply (startswith_app cr)|done].
    + split_and!.
      * intros e. split; [done|by intros [? _]].
      * intros shown. split; [done|]. intros [[= ->] _]. done.
      * done.
      * intros e. destruct (decide (s = "finished")) as [->|Hfin].
        -- destruct (filename d) eqn:Hname.
           ++ split; [intros [= <-]; right; done|]. by intros [[? _]|(_ & _ & ->)].
           ++ split; [done|]. by intros [[? _]|(_ & ? & _)].
           ++ split; [done|]. by intros [[? _]|(_ & ? & _)].
        -- split; [done|]. intros [[? _]|([= ->] & _)]; done.
      * intros written Hw. split; [by intros [= ->]|].
        intros _ Hfin. destruct (decide (s = "finished")) as [->|_]; [done|].
        by injection Hw as <-.
Qed.

Example console_progress_line :
  YouTubeDownloader.progress_hook
    (mkProgress (Val "downloading") (Val " 42.0%") Absent (Val "00:10") Absent)
  = inr (cr +:+ "Downloading:  42.0% | Speed: ? | ETA: 00:10").
Proof. reflexivity. Qed.

(** ** One job per selection *)

(** X19: whatever the transport, the collaborator and the payload, one run
    of [button_callback] starts at most one download and hands at most one
    file to the transport, and it hands over a file only after a download
    that returned. *)
Theorem button_callback_single_job
    (env : Env) (data : string) (chat_id : Z) (w : World) :
  exists tr,
    extends w (button_callback env data chat_id w).2 tr
    /\ (count_calls is_download tr <= 1)%nat
    /\ (count_calls is_file_send tr <= 1)%nat
    /\ (forall x, x ∈ tr -> is_file_send (entry_call x) = true ->
        exists opts url, occurs_before (Ok (ExtractInfo opts url true)) x tr).
Proof.
  unfold button_callback, send_file, download_video, download_audio,
    try_except, bind, call, lift, extract_and_prepare, print, ret,
    py_open, os_remove, os_rename, os_path_exists.
  repeat (match goal with
          | |- context [bot_api ?e ?w0 ?c] =>
              destruct (bot_api e w0 c) as [[?|?]|] eqn:?
          | |- context [ydl_download ?e ?w0 ?o ?u] =>
              destruct (ydl_download e w0 o u) as [[[?|?]|?] ?] eqn:?
          | |- context [decode_callback ?d] =>
              destruct (decode_callback d) as [?|[? ?]] eqn:?
          | |- context [py_int ?e ?q] => destruct (py_int e q) eqn:?
          | |- context [PyStr.startswith ?a ?b] => destruct (PyStr.startswith a b) eqn:?
          | |- context [PyStr.endswith ?a ?b] => destruct (PyStr.endswith a b) eqn:?
          | |- context [PyStr.is_empty ?a] => destruct (PyStr.is_empty a) eqn:?
          | |- context [decide ?P] => destruct (decide P)
          | |- context [bool_decide ?P] => destruct (bool_decide P) eqn:?
          end; cbn beta iota; cbn [negb not_filename default from_option id]).
  all: eexists; split;
    [unfold extends; cbn [trace log snd files]; rewrite <-?app_assoc; reflexivity|].
  all: cbn [app count_calls entry_call is_download is_file_send Nat.add].
  all: split; [lia|split; [lia|]].
  all: intros x Hx Hsend.
  all: repeat (apply elem_of_cons in Hx as [->|Hx]; [try discriminate Hsend|]).
  all: try (by apply elem_of_nil in Hx).
  all: clear; unfold occurs_before; eexists _, _.
  all: solve [ (exists 0%nat + exists 1%nat + exists 2%nat + exists 3%nat
                + exists 4%nat + exists 5%nat);
               (exists 1%nat + exists 2%nat + exists 3%nat + exists 4%nat
                + exists 5%nat + exists 6%nat + exists 7%nat);
               split; [reflexivity|split; [reflexivity|lia]] ].
Qed.
